(** * obdeploy plugin registry: a shallow embedding of [_plugin.py]

    The development follows the Python module top to bottom: Python
    string and list primitives, the [Plugin] hierarchy, the return
    envelope and execution context, the script execution wrapper
    [pyScriptPluginExec], the two manifest loaders, the component loader
    with its version resolution, and the plugin manager.

    Python strings are byte strings ([string]); comparing UTF-8 byte
    sequences agrees with comparing code points, so [str_ltb] is Python's
    [<] on [str].  Python lists are [list]; dictionaries with string
    keys are [gmap string]. *)

From Stdlib Require Import Ascii String NArith ZArith Lia.
From stdpp Require Import base list strings gmap.

Local Open Scope string_scope.
Local Open Scope list_scope.
Set Warnings "-register-all".

(** ** Python primitives *)

Module Py.

(** *** Sequence comparison

    Python compares two sequences by looking for the first index at
    which the elements differ ([==]) and comparing those two elements;
    when no such index exists the shorter sequence is the smaller. *)
Section Lex.
Context {A : Type} (eqb ltb : A -> A -> bool).

Fixpoint lex_ltb (a b : list A) : bool :=
  match a, b with
  | [], [] => false
  | [], _ :: _ => true
  | _ :: _, [] => false
  | x :: a', y :: b' => if eqb x y then lex_ltb a' b' else ltb x y
  end.
End Lex.

Definition chr_ltb (a b : ascii) : bool := (N_of_ascii a <? N_of_ascii b)%N.

(** [s < t] on [str]. *)
Definition str_ltb (s t : string) : bool :=
  lex_ltb Ascii.eqb chr_ltb (list_ascii_of_string s) (list_ascii_of_string t).

(** [a < b] and [a > b] on lists of [str]. *)
Definition list_ltb (a b : list string) : bool := lex_ltb String.eqb str_ltb a b.
Definition list_gtb (a b : list string) : bool := list_ltb b a.

(** [a == b] on lists of [str]. *)
Definition list_eqb (a b : list string) : bool := bool_decide (a = b).

(** *** [str.split(sep)] for a one-character separator, [sep.join] *)
Fixpoint split (sep : ascii) (s : string) : list string :=
  match s with
  | EmptyString => [EmptyString]
  | String c s' =>
      if Ascii.eqb c sep then EmptyString :: split sep s'
      else match split sep s' with
           | [] => [String c EmptyString]
           | t :: ts => String c t :: ts
           end
  end.

Fixpoint join (sep : string) (l : list string) : string :=
  match l with
  | [] => ""
  | [s] => s
  | s :: l' => s +:+ sep +:+ join sep l'
  end.

(** [str.lower()] on the ASCII letters. *)
Definition chr_lower (c : ascii) : ascii :=
  let n := N_of_ascii c in
  if ((65 <=? n) && (n <=? 90))%N then ascii_of_N (n + 32) else c.

Fixpoint lower (s : string) : string :=
  match s with
  | EmptyString => EmptyString
  | String c s' => String (chr_lower c) (lower s')
  end.

(** *** [max(xs, key=...)] on a non-empty list: the first maximal item *)
Definition max_by {A K : Type} (gtb : K -> K -> bool) (key : A -> K)
    (x : A) (xs : list A) : A :=
  fold_left (fun m item => if gtb (key item) (key m) then item else m) xs x.

(** *** [os.path] (posixpath) *)
Definition slash : ascii := "/"%char.

Fixpoint drop_while {A} (f : A -> bool) (l : list A) : list A :=
  match l with
  | [] => []
  | x :: l' => if f x then drop_while f l' else l
  end.

Fixpoint take_while {A} (f : A -> bool) (l : list A) : list A :=
  match l with
  | [] => []
  | x :: l' => if f x then x :: take_while f l' else []
  end.

Definition is_slash (c : ascii) : bool := Ascii.eqb c slash.

(** [os.path.split(p)]: the tail is what follows the last slash; the head
    is everything before it, with trailing slashes stripped unless the
    head consists of slashes only. *)
Definition path_split (p : string) : string * string :=
  let r := List.rev (list_ascii_of_string p) in
  let tail := List.rev (take_while (fun c => negb (is_slash c)) r) in
  let head_r := drop_while (fun c => negb (is_slash c)) r in
  let head_r' :=
    match drop_while is_slash head_r with
    | [] => head_r
    | stripped => stripped
    end in
  (string_of_list_ascii (List.rev head_r'), string_of_list_ascii tail).

Definition ends_with_slash (p : string) : bool :=
  match List.rev (list_ascii_of_string p) with
  | c :: _ => is_slash c
  | [] => false
  end.

Definition starts_with_slash (p : string) : bool :=
  match p with
  | String c _ => is_slash c
  | EmptyString => false
  end.

(** [os.path.join(a, b)] *)
Definition path_join (a b : string) : string :=
  if starts_with_slash b then b
  else if (bool_decide (a = "") || ends_with_slash a)%bool then a +:+ b
  else a +:+ "/" +:+ b.

(** *** Exceptions and results *)
Inductive ExcClass :=
  | NotImplementedError | ImportError | TypeError | KeyError | IndexError
  | IOError | YAMLError | RuntimeError
  | KeyboardInterrupt | SystemExit.

(** [isinstance(e, Exception)]: the last two classes derive from
    [BaseException] only. *)
Definition is_Exception (c : ExcClass) : bool :=
  match c with
  | KeyboardInterrupt | SystemExit => false
  | _ => true
  end.

Record PyExc := { exc_class : ExcClass; exc_text : string }.

Inductive Result (A : Type) :=
  | Ok (a : A)
  | Raise (e : PyExc).
Arguments Ok {A} a.
Arguments Raise {A} e.

(** *** Values

    [PyObj] stands for an object of a collaborator (a host client, the
    cluster configuration, an option set) that this module only passes
    around. *)
Inductive PyValue :=
  | PyNone
  | PyBool (b : bool)
  | PyInt (z : Z)
  | PyStr (s : string)
  | PyList (l : list PyValue)
  | PyDict (kvs : list (PyValue * PyValue))
  | PyObj (id : nat).

Definition truthy (v : PyValue) : bool :=
  match v with
  | PyNone => false
  | PyBool b => b
  | PyInt z => negb (z =? 0)%Z
  | PyStr s => negb (bool_decide (s = ""))
  | PyList l => match l with [] => false | _ => true end
  | PyDict kvs => match kvs with [] => false | _ => true end
  | PyObj _ => true
  end.

(** Dictionaries whose keys are arbitrary hashable values keep insertion
    order; assigning to a key already present keeps its position.  Only
    scalars are hashable, and [True == 1], [False == 0]. *)
Definition hashable (v : PyValue) : bool :=
  match v with
  | PyList _ | PyDict _ => false
  | _ => true
  end.

Definition key_eqb (a b : PyValue) : bool :=
  match a, b with
  | PyNone, PyNone => true
  | PyBool x, PyBool y => bool_decide (x = y)
  | PyBool x, PyInt y | PyInt y, PyBool x => (Z.b2z x =? y)%Z
  | PyInt x, PyInt y => (x =? y)%Z
  | PyStr x, PyStr y => String.eqb x y
  | PyObj x, PyObj y => Nat.eqb x y
  | _, _ => false
  end.

Fixpoint dict_get {V} (d : list (PyValue * V)) (k : PyValue) : option V :=
  match d with
  | [] => None
  | (k', v) :: d' => if key_eqb k' k then Some v else dict_get d' k
  end.

Fixpoint dict_put {V} (d : list (PyValue * V)) (k : PyValue) (v : V) : list (PyValue * V) :=
  match d with
  | [] => [(k, v)]
  | (k', v') :: d' => if key_eqb k' k then (k', v) :: d' else (k', v') :: dict_put d' k v
  end.

(** [d[k] = v] *)
Definition dict_setitem {V} (d : list (PyValue * V)) (k : PyValue) (v : V)
    : Result (list (PyValue * V)) :=
  if hashable k then Ok (dict_put d k v)
  else Raise {| exc_class := TypeError; exc_text := "unhashable type" |}.

(** [v[key]] for a string [key]. *)
Definition getitem (v : PyValue) (key : string) : Result PyValue :=
  match v with
  | PyDict kvs =>
      match dict_get kvs (PyStr key) with
      | Some x => Ok x
      | None => Raise {| exc_class := KeyError; exc_text := key |}
      end
  | _ => Raise {| exc_class := TypeError; exc_text := "bad subscript" |}
  end.

(** [for x in v]: the items a [for] loop visits. *)
Definition iterate (v : PyValue) : Result (list PyValue) :=
  match v with
  | PyList l => Ok l
  | PyDict kvs => Ok (map fst kvs)
  | PyStr s => Ok (map (fun c => PyStr (String c EmptyString)) (list_ascii_of_string s))
  | _ => Raise {| exc_class := TypeError; exc_text := "object is not iterable" |}
  end.

(** *** The stdio collaborator

    An I/O handle is an object with some set of methods; [stdio] may
    also be [None].  [emit stdio m msg] is the idiom
    [stdio and getattr(stdio, m, print)(msg)]. *)
Record StdioObj := {
  io_truthy : bool;
  io_methods : list string;
  io_sub_io : PyValue
}.

Inductive Event :=
  | StdioCall (method msg : string)
  | Print (msg : string)
  | AddLibsPath (libs : list string)
  | ImportModule (name : string)
  | RemoveLibsPath (libs : list string)
  | ExportModule (name : string)
  | CallEntry (name : string).

Definition emit (stdio : option StdioObj) (method msg : string) : list Event :=
  match stdio with
  | None => []
  | Some io =>
      if io_truthy io then
        if bool_decide (method ∈ io_methods io) then [StdioCall method msg]
        else [Print msg]
      else []
  end.

End Py.
Import Py.

(** ** Plugin kinds and the [Plugin] base class *)

Inductive PluginType := START | PARAM | INSTALL | PY_SCRIPT.

#[global] Instance PluginType_eq_dec : EqDecision PluginType.
Proof. solve_decision. Defined.

#[global] Instance PluginType_countable : Countable PluginType.
Proof.
  refine (inj_countable'
    (fun t => match t with START => 0 | PARAM => 1 | INSTALL => 2 | PY_SCRIPT => 3 end)
    (fun n => match n with 0 => START | 1 => PARAM | 2 => INSTALL | _ => PY_SCRIPT end) _).
  by intros [].
Defined.

(** The object a class or loader carries as [PLUGIN_TYPE]: a member of
    the enumeration, or a [PyScriptPluginLoader.PyScriptPluginType]
    synthesised for a script name. *)
Inductive PluginTypeObj :=
  | EnumMember (t : PluginType)
  | ScriptType (name value : string).

Definition type_name (o : PluginTypeObj) : string :=
  match o with
  | EnumMember START => "START"
  | EnumMember PARAM => "PARAM"
  | EnumMember INSTALL => "INSTALL"
  | EnumMember PY_SCRIPT => "PY_SCRIPT"
  | ScriptType name _ => name
  end.

Definition type_value (o : PluginTypeObj) : string :=
  match o with
  | EnumMember START => "StartPlugin"
  | EnumMember PARAM => "ParamPlugin"
  | EnumMember INSTALL => "InstallPlugin"
  | EnumMember PY_SCRIPT => "PyScriptPlugin"
  | ScriptType _ value => value
  end.

(** A plugin class, as far as the loader looks at it: the class
    attributes, and whether the class derives from [PyScriptPlugin]
    (whose constructor checks [PLUGIN_COMPONENT_NAME] first). *)
Record PluginClass := {
  PLUGIN_TYPE : option PluginTypeObj;
  FLAG_FILE : option string;
  PLUGIN_COMPONENT_NAME : option string;
  is_py_script : bool
}.

Definition ParamPlugin_cls : PluginClass :=
  {| PLUGIN_TYPE := Some (EnumMember PARAM); FLAG_FILE := Some "parameter.yaml";
     PLUGIN_COMPONENT_NAME := None; is_py_script := false |}.

Definition InstallPlugin_cls : PluginClass :=
  {| PLUGIN_TYPE := Some (EnumMember INSTALL); FLAG_FILE := Some "file_map.yaml";
     PLUGIN_COMPONENT_NAME := None; is_py_script := false |}.

Definition PyScriptPlugin_cls : PluginClass :=
  {| PLUGIN_TYPE := None; FLAG_FILE := None;
     PLUGIN_COMPONENT_NAME := None; is_py_script := true |}.

(** The class [PyScriptPluginLoader._create_] generates for a script. *)
Definition script_cls (script_name : string) (t : PluginTypeObj) : PluginClass :=
  {| PLUGIN_TYPE := Some t; FLAG_FILE := Some (script_name +:+ ".py");
     PLUGIN_COMPONENT_NAME := Some script_name; is_py_script := true |}.

(** [getattr(sys.modules[__name__], value, False)] for the classes the
    module defines statically; there is no [StartPlugin]. *)
Definition module_class (value : string) : option PluginClass :=
  if String.eqb value "ParamPlugin" then Some ParamPlugin_cls
  else if String.eqb value "InstallPlugin" then Some InstallPlugin_cls
  else if String.eqb value "PyScriptPlugin" then Some PyScriptPlugin_cls
  else None.

(** The fields [Plugin.__init__] sets.  [plugin_type] is the class
    attribute [PLUGIN_TYPE], which the constructor has checked. *)
Record Plugin := {
  component_name : string;
  plugin_path : string;
  version : list string;
  plugin_type : PluginTypeObj;
  plugin_cls : PluginClass
}.

Definition str_falsy (o : option string) : bool :=
  match o with
  | None => true
  | Some s => bool_decide (s = "")
  end.

Definition not_implemented : PyExc :=
  {| exc_class := NotImplementedError; exc_text := "" |}.

(** [Plugin.__init__] *)
Definition Plugin_init (cls : PluginClass) (component_name plugin_path version : string)
    : Result Plugin :=
  match PLUGIN_TYPE cls with
  | None => Raise not_implemented
  | Some t =>
      if str_falsy (FLAG_FILE cls) then Raise not_implemented
      else Ok {| component_name := component_name;
                 plugin_path := plugin_path;
                 version := split "." version;
                 plugin_type := t;
                 plugin_cls := cls |}
  end.

(** [cls(component_name, plugin_path, version)]: [PyScriptPlugin.__init__]
    raises when [PLUGIN_COMPONENT_NAME] is unset, before anything else. *)
Definition construct (cls : PluginClass) (component_name plugin_path version : string)
    : Result Plugin :=
  if (is_py_script cls && str_falsy (PLUGIN_COMPONENT_NAME cls))%bool
  then Raise not_implemented
  else Plugin_init cls component_name plugin_path version.

(** [Plugin.__str__] *)
Definition Plugin_str (p : Plugin) : string :=
  component_name p +:+ "-" +:+ lower (type_name (plugin_type p)) +:+ "-" +:+
  join "." (version p).

(** ** The return envelope *)

Record PluginReturn := {
  _return_value : PyValue;
  _return_args : list PyValue;
  _return_kwargs : gmap string PyValue
}.

Module PluginReturn.

(** [PluginReturn()] *)
Definition init : PluginReturn :=
  {| _return_value := PyBool false; _return_args := []; _return_kwargs := ∅ |}.

(** [__bool__] *)
Definition bool (r : PluginReturn) : bool :=
  if truthy (_return_value r) then true else false.

Definition value (r : PluginReturn) : PyValue := _return_value r.
Definition args (r : PluginReturn) : list PyValue := _return_args r.
Definition kwargs (r : PluginReturn) : gmap string PyValue := _return_kwargs r.

(** [get_return(key)].  The test [key in self.kwargs] hashes the key, so
    it raises [TypeError] for a list or dictionary; the keys of the
    named payload are strings, so no other hashable value is among
    them. *)
Definition get_return (r : PluginReturn) (key : PyValue) : Result PyValue :=
  if hashable key then
    match key with
    | PyStr s =>
        if bool_decide (s ∈ dom (kwargs r)) then
          match kwargs r !! s with
          | Some v => Ok v
          | None => Ok PyNone
          end
        else Ok PyNone
    | _ => Ok PyNone
    end
  else Raise {| exc_class := TypeError; exc_text := "unhashable type" |}.

Definition set_args (r : PluginReturn) (args : list PyValue) : PluginReturn :=
  {| _return_value := _return_value r; _return_args := args;
     _return_kwargs := _return_kwargs r |}.

Definition set_kwargs (r : PluginReturn) (kwargs : gmap string PyValue) : PluginReturn :=
  {| _return_value := _return_value r; _return_args := _return_args r;
     _return_kwargs := kwargs |}.

Definition set_return (r : PluginReturn) (value : PyValue) : PluginReturn :=
  {| _return_value := value; _return_args := _return_args r;
     _return_kwargs := _return_kwargs r |}.

Definition return_true (r : PluginReturn) (args : list PyValue)
    (kwargs : gmap string PyValue) : PluginReturn :=
  set_kwargs (set_args (set_return r (PyBool true)) args) kwargs.

Definition return_false (r : PluginReturn) (args : list PyValue)
    (kwargs : gmap string PyValue) : PluginReturn :=
  set_kwargs (set_args (set_return r (PyBool false)) args) kwargs.

End PluginReturn.

(** ** The execution context *)

(** [SubIO(stdio)]: the handle [stdio.sub_io()] returns, or [None] when
    [stdio] has no such method, and the cache of looked-up methods. *)
Record SubIO := {
  subio_stdio : PyValue;
  _func : list string
}.

Definition SubIO_init (stdio : option StdioObj) : SubIO :=
  {| subio_stdio :=
       match stdio with
       | Some io => if bool_decide ("sub_io" ∈ io_methods io) then io_sub_io io else PyNone
       | None => PyNone
       end;
     _func := [] |}.

Record ClientForScriptPlugin := {
  client : PyValue;
  client_stdio : SubIO
}.

Record PluginContext := {
  components : PyValue;
  clients : list (PyValue * ClientForScriptPlugin);
  cluster_config : PyValue;
  cmd : PyValue;
  options : PyValue;
  stdio : SubIO;
  _return : PluginReturn
}.

Module PluginContext.

Definition init (components : PyValue) (clients : list (PyValue * ClientForScriptPlugin))
    (cluster_config cmd options : PyValue) (stdio : SubIO) : PluginContext :=
  {| components := components; clients := clients; cluster_config := cluster_config;
     cmd := cmd; options := options; stdio := stdio; _return := PluginReturn.init |}.

Definition get_return (c : PluginContext) : PluginReturn := _return c.

Definition set__return (c : PluginContext) (r : PluginReturn) : PluginContext :=
  {| components := components c; clients := clients c;
     cluster_config := cluster_config c; cmd := cmd c; options := options c;
     stdio := stdio c; _return := r |}.

Definition return_true (c : PluginContext) (args : list PyValue)
    (kwargs : gmap string PyValue) : PluginContext :=
  set__return c (PluginReturn.return_true (_return c) args kwargs).

Definition return_false (c : PluginContext) (args : list PyValue)
    (kwargs : gmap string PyValue) : PluginContext :=
  set__return c (PluginReturn.return_false (_return c) args kwargs).

End PluginContext.

(** ** Script plugins and [pyScriptPluginExec] *)

(** What calling a function of a loaded script module does, as far as
    this module can tell: the function receives the context and the
    extra arguments, leaves the context in some state (the envelope is
    its output channel) and either returns or raises. *)
Definition Method : Type :=
  PluginContext -> list PyValue -> gmap string PyValue -> PluginContext * option PyExc.

(** A loaded module: [getattr(module, name, False)], with an attribute
    that is falsy read as absent. *)
Definition PyModule : Type := string -> option Method.

(** A [PyScriptPlugin] instance: the [Plugin] fields, [ScriptPlugin]'s
    [context] and [PyScriptPlugin]'s [module] and [libs_path]. *)
Record PyScriptPlugin := {
  base : Plugin;
  context : option PluginContext;
  module : option PyModule;
  libs_path : list string
}.

Definition set_context (self : PyScriptPlugin) (c : option PluginContext) : PyScriptPlugin :=
  {| base := base self; context := c; module := module self; libs_path := libs_path self |}.

Definition set_module (self : PyScriptPlugin) (m : option PyModule) : PyScriptPlugin :=
  {| base := base self; context := context self; module := m; libs_path := libs_path self |}.

(** The name the plugin imports: its class's [PLUGIN_COMPONENT_NAME],
    set for every instance (the constructor raises otherwise). *)
Definition import_name (self : PyScriptPlugin) : string :=
  match PLUGIN_COMPONENT_NAME (plugin_cls (base self)) with
  | Some n => n
  | None => ""
  end.

(** [PyScriptPlugin.__init__], with [LIBS_PATH = []]. *)
Definition PyScriptPlugin_init (cls : PluginClass) (component_name plugin_path version : string)
    : Result PyScriptPlugin :=
  match construct cls component_name plugin_path version with
  | Raise e => Raise e
  | Ok p => Ok {| base := p; context := None; module := None; libs_path := [plugin_path] |}
  end.

Section ScriptExec.

(** [DynamicLoading.import_module] lives in another file of the
    repository: what importing a name finds under the given search
    path is a parameter; [None] is a failed import. *)
Variable import_module : list string -> string -> option PyModule.

(** [PyScriptPlugin._import] *)
Definition _import (self : PyScriptPlugin) (stdio : option StdioObj)
    : PyScriptPlugin * list Event :=
  match module self with
  | None =>
      (set_module self (import_module (libs_path self) (import_name self)),
       [AddLibsPath (libs_path self); ImportModule (import_name self)])
  | Some _ => (self, [])
  end.

(** [PyScriptPlugin._export]; it leaves [self.module] as it is. *)
Definition _export (self : PyScriptPlugin) (stdio : option StdioObj)
    : PyScriptPlugin * list Event :=
  match module self with
  | Some _ => (self, [RemoveLibsPath (libs_path self); ExportModule (import_name self)])
  | None => (self, [])
  end.

(** [ScriptPlugin.before_do]; [clients] is the dictionary from servers
    to host clients, in its iteration order. *)
Definition before_do (self : PyScriptPlugin) (components : PyValue)
    (clients : list (PyValue * PyValue)) (cluster_config cmd options : PyValue)
    (stdio : option StdioObj) : PyScriptPlugin * list Event :=
  let '(self, ev) := _import self stdio in
  let sub_stdio := SubIO_init stdio in
  let sub_clients :=
    map (fun sc => (fst sc, {| client := snd sc; client_stdio := sub_stdio |})) clients in
  (set_context self
     (Some (PluginContext.init components sub_clients cluster_config cmd options sub_stdio)),
   ev).

(** [ScriptPlugin.after_do] *)
Definition after_do (self : PyScriptPlugin) (stdio : option StdioObj)
    : PyScriptPlugin * list Event :=
  let '(self, ev) := _export self stdio in
  (set_context self None, ev).

(** The tail of [_new_func] after the [if self.module:] block. *)
Definition finish (self : PyScriptPlugin) (stdio : option StdioObj) (ev : list Event)
    : Result PluginReturn * PyScriptPlugin * list Event :=
  let ret :=
    match context self with
    | Some c => PluginContext.get_return c
    | None => PluginReturn.init
    end in
  let '(self, ev') := after_do self stdio in
  (Ok ret, self, ev ++ ev').

(** [pyScriptPluginExec(func)], for [func.__name__ = method_name]: the
    result or the exception that reaches the caller, the plugin
    afterwards, and what happened on the way.  An exception that is
    not an [Exception] passes the [except] clause and leaves
    [_new_func] at once. *)
Definition pyScriptPluginExec (method_name : string) (self : PyScriptPlugin)
    (components : PyValue) (clients : list (PyValue * PyValue))
    (cluster_config cmd options : PyValue) (stdio : option StdioObj)
    (arg : list PyValue) (kwargs : gmap string PyValue)
    : Result PluginReturn * PyScriptPlugin * list Event :=
  let '(self, ev) := before_do self components clients cluster_config cmd options stdio in
  match module self with
  | None => finish self stdio ev
  | Some m =>
      match m method_name, context self with
      | Some method, Some ctx =>
          let '(ctx', outcome) := method ctx arg kwargs in
          let self := set_context self (Some ctx') in
          let ev := ev ++ [CallEntry method_name] in
          match outcome with
          | None => finish self stdio ev
          | Some e =>
              if is_Exception (exc_class e) then
                finish self stdio
                  (ev ++ emit stdio "exception"
                           (Plugin_str (base self) +:+ " RuntimeError: " +:+ exc_text e))
              else (Raise e, self, ev)
          end
      | _, _ => finish self stdio ev
      end
  end.

End ScriptExec.

(** ** Manifest plugins *)

(** Modelled from the spec: [ConfigUtil.get_value_from_dict] is defined
    in another file of the repository; the manifest fields it reads are
    optional, each with a default, so it is the field's value when the
    record has the field and the default otherwise. *)
Definition get_value_from_dict (conf : PyValue) (key : string) (default : PyValue) : PyValue :=
  match getitem conf key with
  | Ok v => v
  | Raise _ => default
  end.

(** A bare [except: pass] around a block that updates state: whatever
    the block raised is dropped, the state it reached stays. *)
Definition except_pass {S : Type} (r : Result unit * S) : Result unit * S :=
  (Ok tt, snd r).

Record ConfigItem := {
  ci_name : PyValue;
  ci_default : PyValue;
  ci_require : PyValue;
  ci_need_restart : PyValue;
  ci_need_redeploy : PyValue
}.

Record ParamPlugin := {
  param_base : Plugin;
  def_param_yaml_path : string;
  _src_data : option (list (PyValue * ConfigItem))
}.

Record FileItem := {
  fi_src_path : PyValue;
  fi_target_path : PyValue;
  fi_type : PyValue
}.

(** [InstallPlugin.FileItem.__init__] *)
Definition FileItem_init (src_path target_path _type : PyValue) : FileItem :=
  {| fi_src_path := src_path; fi_target_path := target_path;
     fi_type := if truthy _type then _type else PyStr "file" |}.

Record InstallPlugin := {
  install_base : Plugin;
  file_map_path : string;
  _file_map : option (list (PyValue * FileItem))
}.

Section Manifests.

(** [open(path, 'rb')] followed by [yaml.load]: the parsed document, or
    the exception of a missing file or of text that is not YAML. *)
Variable load_yaml : string -> Result PyValue.

(** One round of the [for conf in configs] loop of [params]. *)
Definition params_step (src_data : list (PyValue * ConfigItem)) (conf : PyValue)
    : Result (list (PyValue * ConfigItem)) :=
  match getitem conf "name" with
  | Raise e => Raise e
  | Ok name =>
      dict_setitem src_data name
        {| ci_name := name;
           ci_default := get_value_from_dict conf "default" PyNone;
           ci_require := get_value_from_dict conf "require" (PyBool false);
           ci_need_restart := get_value_from_dict conf "need_restart" (PyBool false);
           ci_need_redeploy := get_value_from_dict conf "need_redeploy" (PyBool false) |}
  end.

(** A [for] loop whose body may raise, over a dictionary being filled. *)
Fixpoint for_each {V : Type} (step : list (PyValue * V) -> PyValue -> Result (list (PyValue * V)))
    (items : list PyValue) (d : list (PyValue * V)) : Result unit * list (PyValue * V) :=
  match items with
  | [] => (Ok tt, d)
  | x :: rest =>
      match step d x with
      | Raise e => (Raise e, d)
      | Ok d' => for_each step rest d'
      end
  end.

(** The [try] block of a manifest property, started on an empty
    dictionary. *)
Definition parse {V : Type} (step : list (PyValue * V) -> PyValue -> Result (list (PyValue * V)))
    (path : string) : Result unit * list (PyValue * V) :=
  match load_yaml path with
  | Raise e => (Raise e, [])
  | Ok configs =>
      match iterate configs with
      | Raise e => (Raise e, [])
      | Ok items => for_each step items []
      end
  end.

(** [ParamPlugin.params] *)
Definition params (self : ParamPlugin)
    : Result (list (PyValue * ConfigItem)) * ParamPlugin :=
  match _src_data self with
  | Some d => (Ok d, self)
  | None =>
      let '(r, d) := except_pass (parse params_step (def_param_yaml_path self)) in
      let self := {| param_base := param_base self;
                     def_param_yaml_path := def_param_yaml_path self;
                     _src_data := Some d |} in
      match r with
      | Raise e => (Raise e, self)
      | Ok _ => (Ok d, self)
      end
  end.

(** [k = data['src_path']] followed by the rewriting of [k].  A path
    that is not a string raises on the way: [k[0]] fails on [None], a
    number or an empty or key-less container, [os.path.join] rejects
    what is left, and a list or dictionary that begins with ['.'] is
    not hashable. *)
Definition normalize_src_path (k : PyValue) : Result PyValue :=
  match k with
  | PyStr EmptyString => Raise {| exc_class := IndexError; exc_text := "string index out of range" |}
  | PyStr (String c _ as s) =>
      if Ascii.eqb c "."%char then Ok (PyStr s)
      else Ok (PyStr ("." +:+ path_join "/" s))
  | _ => Raise {| exc_class := TypeError; exc_text := "bad src_path" |}
  end.

(** One round of the [for data in file_map] loop of [file_map]. *)
Definition file_map_step (fm : list (PyValue * FileItem)) (data : PyValue)
    : Result (list (PyValue * FileItem)) :=
  match getitem data "src_path" with
  | Raise e => Raise e
  | Ok k0 =>
      match normalize_src_path k0 with
      | Raise e => Raise e
      | Ok k =>
          dict_setitem fm k
            (FileItem_init k (get_value_from_dict data "target_path" k)
                             (get_value_from_dict data "type" PyNone))
      end
  end.

(** [InstallPlugin.file_map] *)
Definition file_map (self : InstallPlugin)
    : Result (list (PyValue * FileItem)) * InstallPlugin :=
  match _file_map self with
  | Some d => (Ok d, self)
  | None =>
      let '(r, d) := except_pass (parse file_map_step (file_map_path self)) in
      let self := {| install_base := install_base self;
                     file_map_path := file_map_path self;
                     _file_map := Some d |} in
      match r with
      | Raise e => (Raise e, self)
      | Ok _ => (Ok d, self)
      end
  end.

End Manifests.

Section ManifestQueries.

Variable load_yaml : string -> Result PyValue.

Definition key_error : PyExc := {| exc_class := KeyError; exc_text := "" |}.

(** The loop shared by [get_need_redeploy_items] and
    [get_need_restart_items]: [for name in params], with
    [conf = params[name]] and the test of one flag of [conf]. *)
Fixpoint flagged_loop (flag : ConfigItem -> PyValue) (params : list (PyValue * ConfigItem))
    (names items : list PyValue) : Result (list PyValue) :=
  match names with
  | [] => Ok items
  | name :: rest =>
      match dict_get params name with
      | None => Raise key_error
      | Some conf =>
          flagged_loop flag params rest (if truthy (flag conf) then items ++ [name] else items)
      end
  end.

(** [ParamPlugin.get_need_redeploy_items] *)
Definition get_need_redeploy_items (self : ParamPlugin) : Result (list PyValue) * ParamPlugin :=
  match params load_yaml self with
  | (Raise e, self) => (Raise e, self)
  | (Ok params, self) => (flagged_loop ci_need_redeploy params (map fst params) [], self)
  end.

(** [ParamPlugin.get_need_restart_items] *)
Definition get_need_restart_items (self : ParamPlugin) : Result (list PyValue) * ParamPlugin :=
  match params load_yaml self with
  | (Raise e, self) => (Raise e, self)
  | (Ok params, self) => (flagged_loop ci_need_restart params (map fst params) [], self)
  end.

(** The loop of [get_params_default]: [temp[conf.name] = conf.default]. *)
Fixpoint defaults_loop (params : list (PyValue * ConfigItem)) (names : list PyValue)
    (temp : list (PyValue * PyValue)) : Result (list (PyValue * PyValue)) :=
  match names with
  | [] => Ok temp
  | name :: rest =>
      match dict_get params name with
      | None => Raise key_error
      | Some conf =>
          match dict_setitem temp (ci_name conf) (ci_default conf) with
          | Raise e => Raise e
          | Ok temp' => defaults_loop params rest temp'
          end
      end
  end.

(** [ParamPlugin.get_params_default] *)
Definition get_params_default (self : ParamPlugin)
    : Result (list (PyValue * PyValue)) * ParamPlugin :=
  match params load_yaml self with
  | (Raise e, self) => (Raise e, self)
  | (Ok params, self) => (defaults_loop params (map fst params) [], self)
  end.

(** The comprehension [[file_map[k] for k in file_map]]. *)
Fixpoint file_list_loop (file_map : list (PyValue * FileItem)) (keys : list PyValue)
    : Result (list FileItem) :=
  match keys with
  | [] => Ok []
  | k :: rest =>
      match dict_get file_map k with
      | None => Raise key_error
      | Some item =>
          match file_list_loop file_map rest with
          | Raise e => Raise e
          | Ok items => Ok (item :: items)
          end
      end
  end.

(** [InstallPlugin.file_list] *)
Definition file_list (self : InstallPlugin) : Result (list FileItem) * InstallPlugin :=
  match file_map load_yaml self with
  | (Raise e, self) => (Raise e, self)
  | (Ok fm, self) => (file_list_loop fm (map fst fm), self)
  end.

End ManifestQueries.

(** ** The component loader *)

Record ComponentPluginLoader := {
  loader_PLUGIN_TYPE : PluginTypeObj;
  plguin_cls : PluginClass;
  loader_stdio : option StdioObj;
  path : string;
  loader_component_name : string;
  _plugins : gmap string Plugin
}.

Definition set__plugins (self : ComponentPluginLoader) (c : gmap string Plugin)
    : ComponentPluginLoader :=
  {| loader_PLUGIN_TYPE := loader_PLUGIN_TYPE self; plguin_cls := plguin_cls self;
     loader_stdio := loader_stdio self; path := path self;
     loader_component_name := loader_component_name self; _plugins := c |}.

(** ['%s' % x] for an optional string. *)
Definition format_opt (o : option string) : string :=
  match o with
  | Some s => s
  | None => "None"
  end.

(** The notice of [get_best_plugin] when it falls back to an older
    version. *)
Definition fallback_message (component kind : string) (requested selected : list string)
    : string :=
  component +:+ " " +:+ kind +:+ " plugin version " +:+ join "." requested +:+
  " not found, use the best suitable version " +:+ join "." selected +:+
  String (ascii_of_N 10) ". Use `obd update` to update local plugin repository".

Section Loader.

(** [glob(pattern)]: the paths the pattern matches, in the order the
    file system gives them. *)
Variable glob : string -> list string.

(** [ComponentPluginLoader.__init__]; [class_type] is the class
    attribute [PLUGIN_TYPE] of the loader class ([None] for
    [ComponentPluginLoader] itself) and [classes] the lookup of a
    class by name in this module. *)
Definition ComponentPluginLoader_init (classes : string -> option PluginClass)
    (class_type : option PluginTypeObj) (home_path : string)
    (plugin_type : option PluginTypeObj) (stdio : option StdioObj)
    : Result ComponentPluginLoader :=
  let self_type := match plugin_type with Some t => Some t | None => class_type end in
  match self_type with
  | None => Raise not_implemented
  | Some t =>
      match classes (type_value t) with
      | None => Raise {| exc_class := ImportError; exc_text := type_value t |}
      | Some cls =>
          Ok {| loader_PLUGIN_TYPE := t; plguin_cls := cls; loader_stdio := stdio;
                path := home_path;
                loader_component_name := snd (path_split home_path);
                _plugins := ∅ |}
      end
  end.

(** The loop of [get_plugins] over the globbed flag paths. *)
Fixpoint get_plugins_loop (self : ComponentPluginLoader) (flag_paths : list string)
    (plugins : list Plugin) : Result (list Plugin) * ComponentPluginLoader :=
  match flag_paths with
  | [] => (Ok plugins, self)
  | flag_path :: rest =>
      match _plugins self !! flag_path with
      | Some plugin => get_plugins_loop self rest (plugins ++ [plugin])
      | None =>
          let path := fst (path_split flag_path) in
          let version := snd (path_split path) in
          match construct (plguin_cls self) (loader_component_name self) path version with
          | Raise e => (Raise e, self)
          | Ok plugin =>
              get_plugins_loop (set__plugins self (<[flag_path := plugin]> (_plugins self)))
                rest (plugins ++ [plugin])
          end
      end
  end.

(** [ComponentPluginLoader.get_plugins] *)
Definition get_plugins (self : ComponentPluginLoader)
    : Result (list Plugin) * ComponentPluginLoader :=
  get_plugins_loop self
    (glob (path self +:+ "/*/" +:+ format_opt (FLAG_FILE (plguin_cls self)))) [].

(** The [for] loop of [get_best_plugin] for the split version
    [requested]: [inl] is the early [return] of an exact match, [inr]
    the list [plugins] the loop collected. *)
Fixpoint scan (requested : list string) (found plugins : list Plugin)
    : Plugin + list Plugin :=
  match found with
  | [] => inr plugins
  | plugin :: rest =>
      if list_eqb (version plugin) requested then inl plugin
      else if list_ltb (version plugin) requested
           then scan requested rest (plugins ++ [plugin])
           else scan requested rest plugins
  end.

(** What [get_best_plugin] does with the discovered plugins. *)
Definition select (self : ComponentPluginLoader) (requested : list string)
    (found : list Plugin) : option Plugin * list Event :=
  match scan requested found [] with
  | inl plugin => (Some plugin, [])
  | inr [] => (None, [])
  | inr (p :: ps) =>
      let plugin := max_by list_gtb version p ps in
      (Some plugin,
       emit (loader_stdio self) "warn"
         (fallback_message (loader_component_name self)
            (lower (type_name (loader_PLUGIN_TYPE self)))
            requested (version plugin)))
  end.

(** [ComponentPluginLoader.get_best_plugin] *)
Definition get_best_plugin (self : ComponentPluginLoader) (version : string)
    : Result (option Plugin) * ComponentPluginLoader * list Event :=
  let requested := split "." version in
  match get_plugins self with
  | (Raise e, self) => (Raise e, self, [])
  | (Ok found, self) =>
      let '(r, ev) := select self requested found in
      (Ok r, self, ev)
  end.

End Loader.

(** ** The plugin manager *)

Record PluginManager := {
  manager_path : string;
  manager_stdio : option StdioObj;
  component_plugin_loaders : gmap PluginType (gmap string ComponentPluginLoader);
  py_script_plugin_loaders : gmap string (gmap string ComponentPluginLoader)
}.

Definition set_component_plugin_loaders (self : PluginManager)
    (t : gmap PluginType (gmap string ComponentPluginLoader)) : PluginManager :=
  {| manager_path := manager_path self; manager_stdio := manager_stdio self;
     component_plugin_loaders := t;
     py_script_plugin_loaders := py_script_plugin_loaders self |}.

(** [PluginManager.__init__].  The base class [Manager] belongs to
    another file; the directory it leaves in [self.path] is the
    parameter [path]. *)
Definition PluginManager_init (path : string) (stdio : option StdioObj) : PluginManager :=
  let table :=
    fold_left (fun t plugin_type => <[plugin_type := ∅]> t)
      [START; PARAM; INSTALL; PY_SCRIPT]
      (∅ : gmap PluginType (gmap string ComponentPluginLoader)) in
  {| manager_path := path; manager_stdio := stdio;
     component_plugin_loaders := delete PY_SCRIPT table;
     py_script_plugin_loaders := ∅ |}.

(** [plugin_type in self.component_plugin_loaders] and the lookup that
    follows: the keys are members of the enumeration, so no other
    object is found. *)
Definition loaders_of (self : PluginManager) (plugin_type : PluginTypeObj)
    : option (gmap string ComponentPluginLoader) :=
  match plugin_type with
  | EnumMember t => component_plugin_loaders self !! t
  | ScriptType _ _ => None
  end.

Section Manager.

Variable glob : string -> list string.

(** [PluginManager.get_best_plugin].  The loader found or created is
    the object stored in the table, so what [get_best_plugin] adds to
    the loader's cache is seen through the table afterwards. *)
Definition Manager_get_best_plugin (self : PluginManager) (plugin_type : PluginTypeObj)
    (component_name version : string)
    : Result (option Plugin) * PluginManager * list Event :=
  match plugin_type, loaders_of self plugin_type with
  | EnumMember t, Some loaders =>
      let created :=
        match loaders !! component_name with
        | Some loader => Ok loader
        | None =>
            ComponentPluginLoader_init module_class None
              (path_join (manager_path self) component_name)
              (Some plugin_type) (manager_stdio self)
        end in
      match created with
      | Raise e => (Raise e, self, [])
      | Ok loader =>
          let '(r, loader, ev) := get_best_plugin glob loader version in
          (r,
           set_component_plugin_loaders self
             (<[t := <[component_name := loader]> loaders]> (component_plugin_loaders self)),
           ev)
      end
  | _, _ => (Ok None, self, [])
  end.

End Manager.

(** ** The script loader *)

(** [str.upper()] and [str.capitalize()] as they are on strings of ASCII
    characters. *)
Definition chr_upper (c : ascii) : ascii :=
  let n := N_of_ascii c in
  if ((97 <=? n) && (n <=? 122))%N then ascii_of_N (n - 32) else c.

Fixpoint upper (s : string) : string :=
  match s with
  | EmptyString => EmptyString
  | String c s' => String (chr_upper c) (upper s')
  end.

Definition capitalize (s : string) : string :=
  match s with
  | EmptyString => EmptyString
  | String c s' => String (chr_upper c) (lower s')
  end.

(** Python's [str.upper] and [str.capitalize].  They also change letters
    outside ASCII, by tables of the interpreter, so a script loader takes
    the two functions as given; [ascii_case] is what they are on ASCII
    strings. *)
Record CaseMapping := {
  py_upper : string -> string;
  py_capitalize : string -> string
}.

Definition ascii_case : CaseMapping :=
  {| py_upper := upper; py_capitalize := capitalize |}.

(** The [PyScriptPluginType] that [PyScriptPluginLoader.__init__] builds
    for a script name. *)
Definition script_type (case : CaseMapping) (script_name : string) : PluginTypeObj :=
  ScriptType ("PY_SCRIPT_" +:+ py_upper case script_name)
    ("PyScript" +:+ join "" (map (py_capitalize case) (split "_" script_name)) +:+ "Plugin").

(** [getattr(sys.modules[__name__], name, False)] once script classes
    have been added to the module: the classes the module defines, then
    those in [registry], which [_create_] has set.  (Only names of the
    form [PyScript...Plugin] and the values of [PluginType] are looked
    up.) *)
Definition module_getattr (registry : gmap string PluginClass) (name : string)
    : option PluginClass :=
  match module_class name with
  | Some cls => Some cls
  | None => registry !! name
  end.

Definition set_py_script_plugin_loaders (self : PluginManager)
    (t : gmap string (gmap string ComponentPluginLoader)) : PluginManager :=
  {| manager_path := manager_path self; manager_stdio := manager_stdio self;
     component_plugin_loaders := component_plugin_loaders self;
     py_script_plugin_loaders := t |}.

Section ScriptLoader.

Variable glob : string -> list string.
Variable case : CaseMapping.

(** [PyScriptPluginLoader._create_] runs [exec] on a class definition
    written out with the script name, stores the class in the module
    under the type's value and then sets the class's plugin type.  What
    the interpreter makes of the generated text is a parameter: the
    class that ends up stored in the module, if any, and the exception
    [_create_] ends with, if any. *)
Variable create : string -> PluginTypeObj -> option PluginClass * option PyExc.

(** [PyScriptPluginLoader.__init__], on the classes registered so far. *)
Definition PyScriptPluginLoader_init (registry : gmap string PluginClass)
    (home_path script_name : string) (stdio : option StdioObj)
    : Result ComponentPluginLoader * gmap string PluginClass :=
  if bool_decide (script_name = "") then (Raise not_implemented, registry)
  else
    let t := script_type case script_name in
    let '(registry, raised) :=
      match module_getattr registry (type_value t) with
      | Some _ => (registry, None)
      | None =>
          let '(cls, raised) := create script_name t in
          (match cls with
           | Some c => <[type_value t := c]> registry
           | None => registry
           end, raised)
      end in
    match raised with
    | Some e => (Raise e, registry)
    | None =>
        (ComponentPluginLoader_init (module_getattr registry) (Some t) home_path None stdio,
         registry)
    end.

(** [PluginManager.get_best_py_script_plugin] *)
Definition get_best_py_script_plugin (self : PluginManager)
    (registry : gmap string PluginClass) (script_name component_name version : string)
    : Result (option Plugin) * PluginManager * gmap string PluginClass * list Event :=
  let table :=
    match py_script_plugin_loaders self !! script_name with
    | Some _ => py_script_plugin_loaders self
    | None => <[script_name := ∅]> (py_script_plugin_loaders self)
    end in
  let loaders := default ∅ (table !! script_name) in
  let '(created, registry) :=
    match loaders !! component_name with
    | Some loader => (Ok loader, registry)
    | None =>
        PyScriptPluginLoader_init registry (path_join (manager_path self) component_name)
          script_name (manager_stdio self)
    end in
  match created with
  | Raise e => (Raise e, set_py_script_plugin_loaders self table, registry, [])
  | Ok loader =>
      let '(r, loader, ev) := get_best_plugin glob loader version in
      (r,
       set_py_script_plugin_loaders self
         (<[script_name := <[component_name := loader]> loaders]> table),
       registry, ev)
  end.

End ScriptLoader.

(** ** Vocabulary of the statements *)

(** [a <= b] on versions, as the loader compares them. *)
Definition version_leb (a b : list string) : bool := (list_eqb a b || list_ltb a b)%bool.


(** The arguments of one invocation of a script plugin. *)
Record Invocation := {
  i_components : PyValue;
  i_clients : list (PyValue * PyValue);
  i_cluster_config : PyValue;
  i_cmd : PyValue;
  i_options : PyValue;
  i_stdio : option StdioObj;
  i_arg : list PyValue;
  i_kwargs : gmap string PyValue
}.

(** The decorated method [method_name] of a script plugin, called with
    the arguments [c]. *)
Definition invoke (import_module : list string -> string -> option PyModule)
    (method_name : string) (self : PyScriptPlugin) (c : Invocation)
    : Result PluginReturn * PyScriptPlugin * list Event :=
  pyScriptPluginExec import_module method_name self (i_components c) (i_clients c)
    (i_cluster_config c) (i_cmd c) (i_options c) (i_stdio c) (i_arg c) (i_kwargs c).

(** The context [before_do] builds from the arguments [c]. *)
Definition fresh_context (c : Invocation) : PluginContext :=
  PluginContext.init (i_components c)
    (map (fun sc => (fst sc, {| client := snd sc; client_stdio := SubIO_init (i_stdio c) |}))
       (i_clients c))
    (i_cluster_config c) (i_cmd c) (i_options c) (SubIO_init (i_stdio c)).

(** The module an invocation works with: the one the plugin holds, or
    the one [_import] fetches. *)
Definition module_in_use (import_module : list string -> string -> option PyModule)
    (self : PyScriptPlugin) : option PyModule :=
  match module self with
  | Some m => Some m
  | None => import_module (libs_path self) (import_name self)
  end.

Definition load_events (self : PyScriptPlugin) : list Event :=
  match module self with
  | None => [AddLibsPath (libs_path self); ImportModule (import_name self)]
  | Some _ => []
  end.

Definition unload_events (self : PyScriptPlugin) : list Event :=
  [RemoveLibsPath (libs_path self); ExportModule (import_name self)].

Definition is_call (e : Event) : bool :=
  match e with
  | CallEntry _ => true
  | _ => false
  end.

(** A manifest that fails to parse, with the entries of the records
    that came before the failure: the file cannot be opened or is not
    YAML, the document cannot be iterated, or the first record that does
    not go through follows the records [good]. *)
Inductive ManifestFailure {V : Type} (load_yaml : string -> Result PyValue)
    (step : list (PyValue * V) -> PyValue -> Result (list (PyValue * V))) (path : string)
    : list (PyValue * V) -> Prop :=
  | load_fails (e : PyExc) :
      load_yaml path = Raise e ->
      ManifestFailure load_yaml step path []
  | not_iterable (doc : PyValue) (e : PyExc) :
      load_yaml path = Ok doc ->
      iterate doc = Raise e ->
      ManifestFailure load_yaml step path []
  | record_fails (doc : PyValue) (good : list PyValue) (bad : PyValue)
      (rest : list PyValue) (d : list (PyValue * V)) (e : PyExc) :
      load_yaml path = Ok doc ->
      iterate doc = Ok (good ++ bad :: rest) ->
      for_each step good [] = (Ok tt, d) ->
      step d bad = Raise e ->
      ManifestFailure load_yaml step path d.

(** A class whose constructor accepts every directory: the checks of
    [PyScriptPlugin.__init__] and [Plugin.__init__] pass. *)
Definition constructible (cls : PluginClass) : bool :=
  (negb (is_py_script cls && str_falsy (PLUGIN_COMPONENT_NAME cls)) &&
   match PLUGIN_TYPE cls with Some _ => true | None => false end &&
   negb (str_falsy (FLAG_FILE cls)))%bool.

Definition is_load (e : Event) : bool :=
  match e with
  | AddLibsPath _ | ImportModule _ => true
  | _ => false
  end.

Definition is_unload (e : Event) : bool :=
  match e with
  | RemoveLibsPath _ | ExportModule _ => true
  | _ => false
  end.

Definition is_output (e : Event) : bool :=
  match e with
  | StdioCall _ _ | Print _ => true
  | _ => false
  end.

(** A dictionary as Python keeps it: every key hashable, no key twice. *)
Fixpoint well_keyed {V : Type} (d : list (PyValue * V)) : Prop :=
  match d with
  | [] => True
  | (k, _) :: d' =>
      hashable k = true /\ (forall kv, In kv d' -> key_eqb k (fst kv) = false) /\ well_keyed d'
  end.

(** What a key is compared by: [True] and [False] are the numbers 1 and
    0; a list or dictionary is no key. *)
Definition key_code (v : PyValue) : option (unit + (Z + (string + nat))) :=
  match v with
  | PyNone => Some (inl tt)
  | PyBool b => Some (inr (inl (Z.b2z b)))
  | PyInt z => Some (inr (inl z))
  | PyStr s => Some (inr (inr (inl s)))
  | PyObj n => Some (inr (inr (inr n)))
  | PyList _ | PyDict _ => None
  end.

(** A string that begins with a dot. *)
Definition dotted (v : PyValue) : bool :=
  match v with
  | PyStr (String c _) => Ascii.eqb c "."%char
  | _ => false
  end.

(** What the parsing of a parameter manifest keeps true of its
    dictionary: it is a dictionary, and every entry sits under (a key
    equal to) its own name. *)
Definition params_ok (d : list (PyValue * ConfigItem)) : Prop :=
  well_keyed d /\ forall kv, In kv d -> key_eqb (fst kv) (ci_name (snd kv)) = true.

(** The same for a file manifest: every entry sits under its source
    path, which is a string that begins with a dot, and has a type. *)
Definition file_map_ok (fm : list (PyValue * FileItem)) : Prop :=
  well_keyed fm /\
  forall kv, In kv fm ->
    fi_src_path (snd kv) = fst kv /\ dotted (fst kv) = true /\ truthy (fi_type (snd kv)) = true.

(** The item [params] builds from one record. *)
Definition config_item_of (name conf : PyValue) : ConfigItem :=
  {| ci_name := name;
     ci_default := get_value_from_dict conf "default" PyNone;
     ci_require := get_value_from_dict conf "require" (PyBool false);
     ci_need_restart := get_value_from_dict conf "need_restart" (PyBool false);
     ci_need_redeploy := get_value_from_dict conf "need_redeploy" (PyBool false) |}.

(** The plugin [get_plugins] constructs for a flag path. *)
Definition plugin_at (self : ComponentPluginLoader) (flag_path : string) : Result Plugin :=
  construct (plguin_cls self) (loader_component_name self)
    (fst (path_split flag_path)) (snd (path_split (fst (path_split flag_path)))).

Definition no_slash (s : string) : bool :=
  forallb (fun c => negb (is_slash c)) (list_ascii_of_string s).

(** A path that can be the parent in [parent/name]: not empty, no slash
    at its end. *)
Definition plain_dir (s : string) : bool :=
  (negb (bool_decide (s = "")) && negb (ends_with_slash s))%bool.

(** The spec's reading of a version: each token a decimal integer. *)
Definition digit_of (c : ascii) : option Z :=
  let n := N_of_ascii c in
  if ((48 <=? n) && (n <=? 57))%N then Some (Z.of_N n - 48)%Z else None.

Fixpoint int_of_digits (acc : Z) (s : string) : option Z :=
  match s with
  | EmptyString => Some acc
  | String c s' =>
      match digit_of c with
      | Some d => int_of_digits (10 * acc + d)%Z s'
      | None => None
      end
  end.

Definition int_of_token (s : string) : Z :=
  match int_of_digits 0 s with
  | Some z => z
  | None => 0%Z
  end.

(** Integer-token ordering, in the words of the spec: element-wise
    integer comparison of the split tokens. *)
Definition spec_int_ltb (a b : list string) : bool :=
  lex_ltb Z.eqb Z.ltb (map int_of_token a) (map int_of_token b).

(** A token made of decimal digits only. *)
Fixpoint digits (s : string) : bool :=
  match s with
  | EmptyString => true
  | String c s' =>
      match digit_of c with
      | Some _ => digits s'
      | None => false
      end
  end.

(** Two versions whose tokens, position by position as far as both
    have one, are numbers of the same number of digits. *)
Fixpoint same_widths (a b : list string) : bool :=
  match a, b with
  | x :: a', y :: b' =>
      (digits x && digits y && (String.length x =? String.length y)%nat && same_widths a' b')%bool
  | _, _ => true
  end.

(** Sample data: a plugin directory of one component, with the handles
    the examples use. *)
Module Sample.

Definition home : string := "/obd/plugins/obproxy".

(** A file system in which [home] holds the given version directories,
    each with a parameter manifest. *)
Definition glob_of (dirs : list string) (pattern : string) : list string :=
  if String.eqb pattern (home +:+ "/*/parameter.yaml")
  then map (fun d => home +:+ "/" +:+ d +:+ "/parameter.yaml") dirs
  else [].

Definition console : StdioObj :=
  {| io_truthy := true; io_methods := ["warn"; "exception"]; io_sub_io := PyNone |}.

Definition loader (stdio : option StdioObj) : ComponentPluginLoader :=
  {| loader_PLUGIN_TYPE := EnumMember PARAM; plguin_cls := ParamPlugin_cls;
     loader_stdio := stdio; path := home; loader_component_name := "obproxy";
     _plugins := ∅ |}.

Definition plugin (v : string) : Plugin :=
  {| component_name := "obproxy"; plugin_path := home +:+ "/" +:+ v;
     version := split "." v; plugin_type := EnumMember PARAM;
     plugin_cls := ParamPlugin_cls |}.

Definition init_type : PluginTypeObj := ScriptType "PY_SCRIPT_INIT" "PyScriptInitPlugin".

(** The script plugin of [plugins/obproxy/3.1.0/init.py], not yet
    loaded. *)
Definition script : PyScriptPlugin :=
  {| base := {| component_name := "obproxy"; plugin_path := home +:+ "/3.1.0";
                version := split "." "3.1.0"; plugin_type := init_type;
                plugin_cls := script_cls "init" init_type |};
     context := None; module := None; libs_path := [home +:+ "/3.1.0"] |}.

Definition boom : PyExc := {| exc_class := RuntimeError; exc_text := "boom" |}.

(** A module whose only function is [init], with the given behaviour. *)
Definition module_with (init : Method) : PyModule :=
  fun name => if String.eqb name "init" then Some init else None.

Definition importing (m : PyModule) (libs : list string) (name : string) : option PyModule :=
  Some m.

(** [init] raises at once. *)
Definition raises : Method := fun ctx _ _ => (ctx, Some boom).


(** [init] calls [return_true(a, b, x=1)]. *)
Definition returns_true (a b : PyValue) : Method :=
  fun ctx _ _ => (PluginContext.return_true ctx [a; b] {["x" := PyInt 1]}, None).

Definition call : Invocation :=
  {| i_components := PyList [PyStr "obproxy"];
     i_clients := [(PyStr "10.0.0.1", PyObj 1)];
     i_cluster_config := PyObj 2; i_cmd := PyStr "init"; i_options := PyObj 3;
     i_stdio := Some console; i_arg := []; i_kwargs := ∅ |}.

(** A parameter manifest whose second record has no [name]. *)
Definition parameters_second_nameless : PyValue :=
  PyList [PyDict [(PyStr "name", PyStr "listen_port"); (PyStr "default", PyInt 2883)];
          PyDict [(PyStr "default", PyInt 1)]].

(** A file manifest whose second record has no [src_path]. *)
Definition files_second_pathless : PyValue :=
  PyList [PyDict [(PyStr "src_path", PyStr "bin/obproxy")];
          PyDict [(PyStr "target_path", PyStr "bin")]].

Definition yaml_is (doc : PyValue) (path : string) : Result PyValue := Ok doc.

Definition no_such_file (path : string) : Result PyValue :=
  Raise {| exc_class := IOError; exc_text := path |}.

Definition param_plugin : ParamPlugin :=
  {| param_base := plugin "3.1.0";
     def_param_yaml_path := path_join (home +:+ "/3.1.0") "parameter.yaml";
     _src_data := None |}.

Definition install_plugin : InstallPlugin :=
  {| install_base :=
       {| component_name := "obproxy"; plugin_path := home +:+ "/3.1.0";
          version := split "." "3.1.0"; plugin_type := EnumMember INSTALL;
          plugin_cls := InstallPlugin_cls |};
     file_map_path := path_join (home +:+ "/3.1.0") "file_map.yaml";
     _file_map := None |}.

Definition listen_port : ConfigItem :=
  {| ci_name := PyStr "listen_port"; ci_default := PyInt 2883;
     ci_require := PyBool false; ci_need_restart := PyBool false;
     ci_need_redeploy := PyBool false |}.

(** [_create_] for script names that are plain identifiers: the class
    of the template. *)
Definition create_from_template (script_name : string) (t : PluginTypeObj)
    : option PluginClass * option PyExc :=
  (Some (script_cls script_name t), None).

(** [init] reports success with its extra arguments when it is given
    any, and leaves the context alone when it is given none. *)
Definition by_arguments : Method :=
  fun ctx arg kwargs =>
    match arg with
    | [] => (ctx, None)
    | _ => (PluginContext.return_true ctx arg kwargs, None)
    end.

Definition call_with_argument : Invocation :=
  {| i_components := PyList [PyStr "obproxy"];
     i_clients := [(PyStr "10.0.0.1", PyObj 1)];
     i_cluster_config := PyObj 2; i_cmd := PyStr "init"; i_options := PyObj 3;
     i_stdio := Some console; i_arg := [PyInt 1]; i_kwargs := ∅ |}.

End Sample.

(** * Properties *)

(** ** The order on versions

    Python's [<] on strings and on lists of strings is a strict total
    order; the facts are proved once for [lex_ltb] and used twice. *)

Class StrictTotal {A : Type} (eqb ltb : A -> A -> bool) : Prop := {
  st_eqb : forall x y, eqb x y = true <-> x = y;
  st_irrefl : forall x, ltb x x = false;
  st_trans : forall x y z, ltb x y = true -> ltb y z = true -> ltb x z = true;
  st_total : forall x y, x = y \/ ltb x y = true \/ ltb y x = true
}.

Section LexFacts.
Context {A : Type} (eqb ltb : A -> A -> bool) `{!StrictTotal eqb ltb}.

Lemma st_eqb_refl x : eqb x x = true.
Proof. by apply st_eqb. Qed.

Lemma st_eqb_false x y : eqb x y = false <-> x <> y.
Proof.
  split.
  - intros H E. apply (st_eqb (ltb := ltb)) in E. congruence.
  - intros H. destruct (eqb x y) eqn:E; [|done].
    apply (st_eqb (ltb := ltb)) in E. done.
Qed.

Lemma lex_ltb_irrefl (a : list A) : lex_ltb eqb ltb a a = false.
Proof. induction a as [|x a IH]; [done|]. simpl. by rewrite st_eqb_refl. Qed.

Lemma lex_ltb_trans (a b c : list A) :
  lex_ltb eqb ltb a b = true -> lex_ltb eqb ltb b c = true -> lex_ltb eqb ltb a c = true.
Proof.
  revert b c. induction a as [|x a IH]; intros [|y b] [|z c]; simpl; try done.
  destruct (eqb x y) eqn:Exy.
  - apply (st_eqb (ltb := ltb)) in Exy as ->.
    destruct (eqb y z) eqn:Eyz; [apply IH | done].
  - destruct (eqb y z) eqn:Eyz.
    + apply (st_eqb (ltb := ltb)) in Eyz as ->. by rewrite Exy.
    + intros Hxy Hyz. pose proof (st_trans x y z Hxy Hyz) as Hxz.
      destruct (eqb x z) eqn:Exz; [|done].
      apply (st_eqb (ltb := ltb)) in Exz as ->.
      by rewrite (st_irrefl (eqb := eqb)) in Hxz.
Qed.

Lemma lex_ltb_total (a b : list A) :
  a = b \/ lex_ltb eqb ltb a b = true \/ lex_ltb eqb ltb b a = true.
Proof.
  revert b. induction a as [|x a IH]; intros [|y b]; simpl; auto.
  destruct (eqb x y) eqn:Exy.
  - apply (st_eqb (ltb := ltb)) in Exy as ->. rewrite st_eqb_refl.
    destruct (IH b) as [->|[?|?]]; auto.
  - assert (eqb y x = false) as ->.
    { apply st_eqb_false. apply st_eqb_false in Exy. congruence. }
    destruct (st_total (eqb := eqb) (ltb := ltb) x y) as [->|[?|?]]; auto.
    by rewrite st_eqb_refl in Exy.
Qed.

Lemma lex_ltb_asym (a b : list A) :
  lex_ltb eqb ltb a b = true -> lex_ltb eqb ltb b a = false.
Proof.
  intros H. destruct (lex_ltb eqb ltb b a) eqn:E; [|done].
  pose proof (lex_ltb_trans _ _ _ H E) as H'. by rewrite lex_ltb_irrefl in H'.
Qed.
End LexFacts.

#[global] Instance chr_strict_total : StrictTotal Ascii.eqb chr_ltb.
Proof.
  split.
  - apply Ascii.eqb_eq.
  - intros x. unfold chr_ltb. apply N.ltb_irrefl.
  - intros x y z. unfold chr_ltb. rewrite !N.ltb_lt. lia.
  - intros x y. unfold chr_ltb. rewrite !N.ltb_lt.
    destruct (N.lt_trichotomy (N_of_ascii x) (N_of_ascii y)) as [?|[E|?]]; auto.
    left. rewrite <- (ascii_N_embedding x), <- (ascii_N_embedding y). by rewrite E.
Qed.

Lemma list_ascii_of_string_inj (s t : string) :
  list_ascii_of_string s = list_ascii_of_string t -> s = t.
Proof.
  intros H. rewrite <- (string_of_list_ascii_of_string s),
    <- (string_of_list_ascii_of_string t). by rewrite H.
Qed.

#[global] Instance str_strict_total : StrictTotal String.eqb str_ltb.
Proof.
  split.
  - apply String.eqb_eq.
  - intros x. apply (lex_ltb_irrefl _ _).
  - intros x y z. apply (lex_ltb_trans _ _).
  - intros x y. unfold str_ltb.
    destruct (lex_ltb_total Ascii.eqb chr_ltb (list_ascii_of_string x) (list_ascii_of_string y))
      as [E|[?|?]]; auto.
    left. by apply list_ascii_of_string_inj.
Qed.

Lemma list_ltb_irrefl (a : list string) : list_ltb a a = false.
Proof. apply (lex_ltb_irrefl _ _). Qed.

Lemma list_ltb_trans (a b c : list string) :
  list_ltb a b = true -> list_ltb b c = true -> list_ltb a c = true.
Proof. apply (lex_ltb_trans _ _). Qed.

Lemma list_ltb_total (a b : list string) :
  a = b \/ list_ltb a b = true \/ list_ltb b a = true.
Proof. apply (lex_ltb_total _ _). Qed.

Lemma list_ltb_asym (a b : list string) : list_ltb a b = true -> list_ltb b a = false.
Proof. apply (lex_ltb_asym _ _). Qed.

(** What is below [b] is below everything that is not below [b]. *)
Lemma list_ltb_neg_trans (a b c : list string) :
  list_ltb a b = true -> list_ltb c b = false -> list_ltb a c = true.
Proof.
  intros Hab Hcb. destruct (list_ltb_total c b) as [->|[?|Hbc]]; [done|congruence|].
  exact (list_ltb_trans _ _ _ Hab Hbc).
Qed.

(** ** Version resolution *)

Lemma list_eqb_true (a b : list string) : list_eqb a b = true <-> a = b.
Proof. unfold list_eqb. apply bool_decide_eq_true. Qed.

Lemma list_eqb_false (a b : list string) : list_eqb a b = false <-> a <> b.
Proof. unfold list_eqb. apply bool_decide_eq_false. Qed.

Lemma version_leb_neq (a b : list string) :
  a <> b -> version_leb a b = list_ltb a b.
Proof. intros H. unfold version_leb. apply list_eqb_false in H. by rewrite H. Qed.

(** The loop returns at the first plugin whose version is the requested
    one, whatever it has collected so far. *)
Lemma scan_exact (requested : list string) (pre post : list Plugin) (p : Plugin)
    (acc : list Plugin) :
  (forall q, In q pre -> version q <> requested) ->
  version p = requested ->
  scan requested (pre ++ p :: post) acc = inl p.
Proof.
  revert acc. induction pre as [|x pre IH]; intros acc Hpre Hp; simpl.
  - apply list_eqb_true in Hp. by rewrite Hp.
  - assert (list_eqb (version x) requested = false) as ->.
    { apply list_eqb_false, Hpre. by left. }
    destruct (list_ltb (version x) requested); apply IH; auto; intros q Hq;
      apply Hpre; by right.
Qed.

(** Without an exact match the loop collects, in order, the plugins
    whose version is below the requested one. *)
Lemma scan_no_exact (requested : list string) (found acc : list Plugin) :
  (forall q, In q found -> version q <> requested) ->
  scan requested found acc =
  inr (acc ++ List.filter (fun q => list_ltb (version q) requested) found).
Proof.
  revert acc. induction found as [|x found IH]; intros acc Hno; simpl.
  - by rewrite app_nil_r.
  - assert (list_eqb (version x) requested = false) as ->.
    { apply list_eqb_false, Hno. by left. }
    destruct (list_ltb (version x) requested).
    + rewrite IH; [|intros q Hq; apply Hno; by right].
      by rewrite <- app_assoc.
    + apply IH. intros q Hq. apply Hno. by right.
Qed.

Lemma max_by_cons {A K : Type} (gtb : K -> K -> bool) (key : A -> K) (p x : A)
    (ps : list A) :
  max_by gtb key p (x :: ps) = max_by gtb key (if gtb (key x) (key p) then x else p) ps.
Proof. reflexivity. Qed.

(** [max] returns an item of the list that no item exceeds. *)
Lemma max_by_version (p : Plugin) (ps : list Plugin) :
  In (max_by list_gtb version p ps) (p :: ps) /\
  forall q, In q (p :: ps) ->
    list_ltb (version (max_by list_gtb version p ps)) (version q) = false.
Proof.
  revert p. induction ps as [|x ps IH]; intros p.
  - simpl. split; [by left|]. intros q [<-|[]]. apply list_ltb_irrefl.
  - rewrite max_by_cons.
    change (list_gtb (version x) (version p)) with (list_ltb (version p) (version x)).
    destruct (list_ltb (version p) (version x)) eqn:Hpx.
    + destruct (IH x) as [Hin Hmax]. split.
      * destruct Hin as [<-|Hin]; [right; by left | right; by right].
      * intros q [<-|Hq]; [|by apply Hmax].
        destruct (list_ltb (version (max_by list_gtb version x ps)) (version p)) eqn:E;
          [|done].
        pose proof (list_ltb_trans _ _ _ E Hpx) as H.
        rewrite Hmax in H; [done | by left].
    + destruct (IH p) as [Hin Hmax]. split.
      * destruct Hin as [<-|Hin]; [by left | right; by right].
      * intros q [<-|[<-|Hq]].
        -- apply Hmax. by left.
        -- destruct (list_ltb (version (max_by list_gtb version p ps)) (version x)) eqn:E;
             [|done].
           pose proof (list_ltb_neg_trans _ _ _ E Hpx) as H.
           rewrite Hmax in H; [done | by left].
        -- apply Hmax. by right.
Qed.





(** Discovery fills the cache and touches nothing else of the loader. *)
Lemma get_plugins_loop_frame (self self' : ComponentPluginLoader)
    (paths : list string) (acc : list Plugin) (r : Result (list Plugin)) :
  get_plugins_loop self paths acc = (r, self') ->
  loader_stdio self' = loader_stdio self /\
  loader_component_name self' = loader_component_name self /\
  loader_PLUGIN_TYPE self' = loader_PLUGIN_TYPE self /\
  plguin_cls self' = plguin_cls self /\
  path self' = path self.
Proof.
  revert self acc. induction paths as [|fp paths IH]; intros self acc; simpl.
  - by intros [= _ <-].
  - destruct (_plugins self !! fp); [apply IH|].
    destruct (construct _ _ _ _); [|by intros [= _ <-]].
    intros H. by apply IH in H.
Qed.

Lemma get_plugins_frame glob (self self' : ComponentPluginLoader) (r : Result (list Plugin)) :
  get_plugins glob self = (r, self') ->
  loader_stdio self' = loader_stdio self /\
  loader_component_name self' = loader_component_name self /\
  loader_PLUGIN_TYPE self' = loader_PLUGIN_TYPE self /\
  plguin_cls self' = plguin_cls self /\
  path self' = path self.
Proof. apply get_plugins_loop_frame. Qed.

Lemma construct_returns (cls : PluginClass) (component_name plugin_path v : string) :
  constructible cls = true ->
  exists p, construct cls component_name plugin_path v = Ok p /\ version p = split "." v.
Proof.
  unfold constructible, construct, Plugin_init.
  destruct (is_py_script cls && str_falsy (PLUGIN_COMPONENT_NAME cls))%bool; [done|].
  destruct (PLUGIN_TYPE cls); [|done].
  destruct (str_falsy (FLAG_FILE cls)); [done|]. intros _. by eexists.
Qed.

(** Discovery returns for every loader of a constructible class, so the
    resolution theorems are about what [get_best_plugin] returns. *)
Lemma get_plugins_returns glob (self : ComponentPluginLoader) :
  constructible (plguin_cls self) = true ->
  exists found self', get_plugins glob self = (Ok found, self').
Proof.
  unfold get_plugins. generalize (@nil Plugin) as acc.
  generalize (glob (path self +:+ "/*/" +:+ format_opt (FLAG_FILE (plguin_cls self)))) as paths.
  intros paths. revert self.
  induction paths as [|fp paths IH]; intros self acc Hc; cbn [get_plugins_loop].
  - by eexists _, _.
  - destruct (_plugins self !! fp); [by apply IH|].
    destruct (construct_returns (plguin_cls self) (loader_component_name self)
                (fst (path_split fp)) (snd (path_split (fst (path_split fp)))) Hc)
      as (p & Hp & _).
    cbv zeta. rewrite Hp. by apply IH.
Qed.

(** C1: the order the resolver applies to versions is Python's order on
    lists of strings, so a token is compared character by character and
    not as an integer: "3.9" is not below "3.10" (it is above it), where
    integer-token ordering puts it below.  With plugins 3.9 and 3.10 a
    request for 4.0 resolves to 3.9, and with plugin 3.10 alone a request
    for 3.9 resolves to 3.10. *)
Theorem C1_tokens_compare_as_strings :
  list_ltb (split "." "3.9") (split "." "3.10") = false /\
  list_ltb (split "." "3.10") (split "." "3.9") = true /\
  spec_int_ltb (split "." "3.9") (split "." "3.10") = true /\
  fst (fst (get_best_plugin (Sample.glob_of ["3.9"; "3.10"]) (Sample.loader None) "4.0"))
    = Ok (Some (Sample.plugin "3.9")) /\
  fst (fst (get_best_plugin (Sample.glob_of ["3.10"]) (Sample.loader None) "3.9"))
    = Ok (Some (Sample.plugin "3.10")).
Proof. repeat split; vm_compute; reflexivity. Qed.

(** C2: when some discovered plugin has exactly the requested token
    sequence, [get_best_plugin] returns the first such plugin in
    discovery order and emits nothing. *)
Theorem C2_exact_match_wins glob (self self' : ComponentPluginLoader) (v : string)
    (found : list Plugin) :
  get_plugins glob self = (Ok found, self') ->
  (exists q, In q found /\ version q = split "." v) ->
  exists p pre post,
    found = pre ++ p :: post /\
    (forall q, In q pre -> version q <> split "." v) /\
    version p = split "." v /\
    get_best_plugin glob self v = (Ok (Some p), self', []).
Proof.
  intros Hget [q [Hin Hq]].
  assert (exists p pre post, found = pre ++ p :: post /\
            (forall q, In q pre -> version q <> split "." v) /\
            version p = split "." v) as (p & pre & post & -> & Hpre & Hp).
  { clear Hget. induction found as [|x found IH]; [done|].
    destruct (decide (version x = split "." v)) as [Hx|Hx].
    - exists x, [], found. by repeat split.
    - destruct Hin as [->|Hin]; [done|].
      destruct (IH Hin) as (p & pre & post & -> & Hpre & Hp).
      exists p, (x :: pre), post. repeat split; [|done].
      intros y [<-|Hy]; auto. }
  exists p, pre, post. repeat split; try done.
  unfold get_best_plugin. rewrite Hget. unfold select.
  by rewrite (scan_exact _ _ _ _ _ Hpre Hp).
Qed.

Lemma C2_exact_match_witness :
  exists p pre post,
    [Sample.plugin "2.0.0"; Sample.plugin "2.1.0"; Sample.plugin "3.0.0"]
      = pre ++ p :: post /\
    (forall q, In q pre -> version q <> split "." "3.0.0") /\
    version p = split "." "3.0.0" /\
    get_best_plugin (Sample.glob_of ["2.0.0"; "2.1.0"; "3.0.0"])
      (Sample.loader (Some Sample.console)) "3.0.0"
    = (Ok (Some p),
       snd (get_plugins (Sample.glob_of ["2.0.0"; "2.1.0"; "3.0.0"])
              (Sample.loader (Some Sample.console))),
       []).
Proof.
  apply (C2_exact_match_wins (Sample.glob_of ["2.0.0"; "2.1.0"; "3.0.0"])
           (Sample.loader (Some Sample.console))).
  - vm_compute. reflexivity.
  - exists (Sample.plugin "3.0.0"). split; [|reflexivity].
    right. right. left. reflexivity.
Defined.



(** The example of the spec: with 2.0.0, 2.1.0 and 3.0.0 on disk, 2.5.0
    resolves to 2.1.0 with a notice, 3.0.0 to itself without one, and
    1.0.0 to nothing. *)
Example resolve_end_to_end :
  let run v := get_best_plugin (Sample.glob_of ["2.0.0"; "2.1.0"; "3.0.0"])
                 (Sample.loader (Some Sample.console)) v in
  (fst (fst (run "2.5.0")), length (snd (run "2.5.0"))) = (Ok (Some (Sample.plugin "2.1.0")), 1) /\
  (fst (fst (run "3.0.0")), snd (run "3.0.0")) = (Ok (Some (Sample.plugin "3.0.0")), []) /\
  (fst (fst (run "1.0.0")), snd (run "1.0.0")) = (Ok None, []).
Proof. repeat split; vm_compute; reflexivity. Qed.


(** ** Script execution *)

Section ScriptFacts.
Variable import_module : list string -> string -> option PyModule.
Variable method_name : string.

(** The plugin after [_import]. *)
Let loaded (self : PyScriptPlugin) : PyScriptPlugin :=
  set_module self (module_in_use import_module self).

Lemma before_do_eq (self : PyScriptPlugin) (c : Invocation) :
  before_do import_module self (i_components c) (i_clients c) (i_cluster_config c)
    (i_cmd c) (i_options c) (i_stdio c)
  = (set_context (loaded self) (Some (fresh_context c)), load_events self).
Proof.
  unfold before_do, _import, loaded, module_in_use, load_events.
  destruct self as [b ctx [m|] libs]; reflexivity.
Qed.

Lemma finish_eq (self : PyScriptPlugin) (stdio : option StdioObj) (ev : list Event)
    (m : PyModule) :
  module self = Some m ->
  finish self stdio ev =
  (Ok (match context self with
       | Some c => PluginContext.get_return c
       | None => PluginReturn.init
       end),
   set_context self None, ev ++ unload_events self).
Proof.
  intros Hm. unfold finish, after_do, _export, unload_events. by rewrite Hm.
Qed.

(** An invocation whose entry function exists, by the way the function
    ends. *)
Lemma invoke_call (self : PyScriptPlugin) (c : Invocation) (m : PyModule)
    (method : Method) (ctx' : PluginContext) (outcome : option PyExc) :
  module_in_use import_module self = Some m ->
  m method_name = Some method ->
  method (fresh_context c) (i_arg c) (i_kwargs c) = (ctx', outcome) ->
  invoke import_module method_name self c =
  match outcome with
  | None =>
      (Ok (PluginContext.get_return ctx'), set_context (loaded self) None,
       load_events self ++ [CallEntry method_name] ++ unload_events self)
  | Some e =>
      if is_Exception (exc_class e) then
        (Ok (PluginContext.get_return ctx'), set_context (loaded self) None,
         load_events self ++ [CallEntry method_name] ++
         emit (i_stdio c) "exception"
           (Plugin_str (base self) +:+ " RuntimeError: " +:+ exc_text e) ++
         unload_events self)
      else
        (Raise e, set_context (loaded self) (Some ctx'),
         load_events self ++ [CallEntry method_name])
  end.
Proof.
  intros Hm Hmeth Hrun. unfold invoke, pyScriptPluginExec.
  rewrite before_do_eq. cbn [set_context module context].
  unfold loaded at 1. cbn [set_module module]. rewrite Hm, Hmeth, Hrun.
  destruct outcome as [e|].
  - destruct (is_Exception (exc_class e)); [|done].
    erewrite finish_eq by (cbn; by rewrite Hm).
    cbn. by rewrite <- !app_assoc.
  - erewrite finish_eq by (cbn; by rewrite Hm).
    cbn. by rewrite <- !app_assoc.
Qed.

(** An invocation whose module lacks the entry function. *)
Lemma invoke_absent (self : PyScriptPlugin) (c : Invocation) (m : PyModule) :
  module_in_use import_module self = Some m ->
  m method_name = None ->
  invoke import_module method_name self c =
  (Ok PluginReturn.init, set_context (loaded self) None,
   load_events self ++ unload_events self).
Proof.
  intros Hm Hmeth. unfold invoke, pyScriptPluginExec.
  rewrite before_do_eq. cbn [set_context module context].
  unfold loaded at 1. cbn [set_module module]. rewrite Hm, Hmeth.
  erewrite finish_eq by (cbn; by rewrite Hm). reflexivity.
Qed.

(** An invocation whose import failed. *)
Lemma invoke_no_module (self : PyScriptPlugin) (c : Invocation) :
  module_in_use import_module self = None ->
  invoke import_module method_name self c =
  (Ok PluginReturn.init, set_context (loaded self) None, load_events self).
Proof.
  intros Hm. unfold invoke, pyScriptPluginExec.
  rewrite before_do_eq. cbn [set_context module context].
  unfold loaded at 1. cbn [set_module module]. rewrite Hm.
  unfold finish, after_do, _export. cbn. unfold loaded. rewrite Hm. cbn.
  by rewrite app_nil_r.
Qed.

(** The context a plugin holds plays no part in its next invocation. *)
Lemma invoke_forgets_context (self : PyScriptPlugin) (x : option PluginContext)
    (c : Invocation) :
  invoke import_module method_name (set_context self x) c
  = invoke import_module method_name self c.
Proof.
  unfold invoke, pyScriptPluginExec, before_do, _import.
  destruct self as [b ctx [m|] libs]; reflexivity.
Qed.

(** Whatever the arguments, an invocation leaves the plugin loaded, with
    some context or none. *)
Lemma invoke_state (self : PyScriptPlugin) (c : Invocation) :
  exists x, snd (fst (invoke import_module method_name self c)) = set_context (loaded self) x.
Proof.
  destruct (module_in_use import_module self) as [m|] eqn:Hm.
  - destruct (m method_name) as [method|] eqn:Hmeth.
    + destruct (method (fresh_context c) (i_arg c) (i_kwargs c)) as [ctx' o] eqn:Hrun.
      rewrite (invoke_call _ _ _ _ _ _ Hm Hmeth Hrun).
      destruct o as [e|]; [destruct (is_Exception _)|]; eauto.
    + rewrite (invoke_absent _ _ _ Hm Hmeth). eauto.
  - rewrite (invoke_no_module _ _ Hm). eauto.
Qed.

End ScriptFacts.

Lemma emit_no_call (stdio : option StdioObj) (method msg : string) :
  forallb (fun e => negb (is_call e)) (emit stdio method msg) = true.
Proof.
  destruct stdio as [io|]; [|done]. simpl.
  destruct (io_truthy io); [|done]. by destruct (bool_decide _).
Qed.

Lemma load_events_no_call (self : PyScriptPlugin) :
  forallb (fun e => negb (is_call e)) (load_events self) = true.
Proof. unfold load_events. by destruct (module self). Qed.




(** C6: an entry function that ends by calling
    [return_true(a, b, x=1)] on the context makes the invocation return
    the envelope with success flag true, positional payload [(a, b)] and
    named payload [{x: 1}]. *)
Theorem C6_return_true_envelope (import_module : list string -> string -> option PyModule)
    (method_name : string) (self : PyScriptPlugin) (c : Invocation) (m : PyModule)
    (method : Method) (ctx0 : PluginContext) (a b : PyValue) :
  module_in_use import_module self = Some m ->
  m method_name = Some method ->
  method (fresh_context c) (i_arg c) (i_kwargs c)
    = (PluginContext.return_true ctx0 [a; b] {["x" := PyInt 1]}, None) ->
  exists ret,
    fst (fst (invoke import_module method_name self c)) = Ok ret /\
    PluginReturn.bool ret = true /\
    PluginReturn.value ret = PyBool true /\
    PluginReturn.args ret = [a; b] /\
    PluginReturn.kwargs ret = {["x" := PyInt 1]}.
Proof.
  intros Hm Hmeth Hrun.
  rewrite (invoke_call _ _ _ _ _ _ _ _ Hm Hmeth Hrun).
  eexists. split; [reflexivity|]. by repeat split.
Qed.

Lemma C6_return_true_witness :
  exists ret,
    fst (fst (invoke (Sample.importing
                        (Sample.module_with (Sample.returns_true (PyInt 7) (PyStr "ok"))))
                "init" Sample.script Sample.call)) = Ok ret /\
    PluginReturn.bool ret = true /\
    PluginReturn.value ret = PyBool true /\
    PluginReturn.args ret = [PyInt 7; PyStr "ok"] /\
    PluginReturn.kwargs ret = {["x" := PyInt 1]}.
Proof.
  apply (C6_return_true_envelope
           (Sample.importing (Sample.module_with (Sample.returns_true (PyInt 7) (PyStr "ok"))))
           "init" Sample.script Sample.call
           (Sample.module_with (Sample.returns_true (PyInt 7) (PyStr "ok")))
           (Sample.returns_true (PyInt 7) (PyStr "ok")) (fresh_context Sample.call));
    reflexivity.
Defined.

(** C7: when the loaded module has no function named after the action,
    the invocation calls nothing in the module and returns the default
    envelope: success flag false, no positional and no named payload. *)
Theorem C7_missing_entry_function (import_module : list string -> string -> option PyModule)
    (method_name : string) (self : PyScriptPlugin) (c : Invocation) (m : PyModule) :
  module_in_use import_module self = Some m ->
  m method_name = None ->
  exists ret self' ev,
    invoke import_module method_name self c = (Ok ret, self', ev) /\
    ret = PluginReturn.init /\
    PluginReturn.bool ret = false /\
    PluginReturn.args ret = [] /\
    PluginReturn.kwargs ret = ∅ /\
    forallb (fun e => negb (is_call e)) ev = true.
Proof.
  intros Hm Hmeth. rewrite (invoke_absent _ _ _ _ _ Hm Hmeth).
  eexists _, _, _. split; [reflexivity|]. repeat split.
  rewrite forallb_app, load_events_no_call. reflexivity.
Qed.

Lemma C7_missing_entry_witness :
  exists ret self' ev,
    invoke (Sample.importing (Sample.module_with Sample.raises)) "start" Sample.script
      Sample.call = (Ok ret, self', ev) /\
    ret = PluginReturn.init /\
    PluginReturn.bool ret = false /\
    PluginReturn.args ret = [] /\
    PluginReturn.kwargs ret = ∅ /\
    forallb (fun e => negb (is_call e)) ev = true.
Proof.
  apply (C7_missing_entry_function (Sample.importing (Sample.module_with Sample.raises))
           "start" Sample.script Sample.call (Sample.module_with Sample.raises));
    reflexivity.
Defined.

(** C8: of two invocations of one script plugin in a row, the second
    hands its entry function a context built from its own arguments,
    whose envelope is the default one, and returns what the function
    makes of that context (the default envelope when there is no
    function to call); what it returns, emits and leaves behind does not
    depend on the arguments of the first; and an invocation that returns
    leaves the plugin without context. *)
Theorem C8_invocations_are_independent
    (import_module : list string -> string -> option PyModule) (method_name : string)
    (self : PyScriptPlugin) (c1 c1' c2 : Invocation) :
  let after c := snd (fst (invoke import_module method_name self c)) in
  context (fst (before_do import_module (after c1) (i_components c2) (i_clients c2)
                  (i_cluster_config c2) (i_cmd c2) (i_options c2) (i_stdio c2)))
    = Some (fresh_context c2) /\
  PluginContext.get_return (fresh_context c2) = PluginReturn.init /\
  invoke import_module method_name (after c1) c2
    = invoke import_module method_name (after c1') c2 /\
  match invoke import_module method_name self c1 with
  | (Ok _, self1, _) => context self1 = None
  | (Raise _, _, _) => True
  end /\
  match invoke import_module method_name (after c1) c2 with
  | (Ok _, self2, _) => context self2 = None
  | (Raise _, _, _) => True
  end /\
  fresh_context c2 =
    {| components := i_components c2;
       clients := map (fun sc => (fst sc, {| client := snd sc;
                                             client_stdio := SubIO_init (i_stdio c2) |}))
                    (i_clients c2);
       cluster_config := i_cluster_config c2; cmd := i_cmd c2; options := i_options c2;
       stdio := SubIO_init (i_stdio c2);
       _return := {| _return_value := PyBool false; _return_args := [];
                     _return_kwargs := ∅ |} |} /\
  (forall m method,
     module_in_use import_module (after c1) = Some m ->
     m method_name = Some method ->
     fst (fst (invoke import_module method_name (after c1) c2)) =
     match method (fresh_context c2) (i_arg c2) (i_kwargs c2) with
     | (ctx', None) => Ok (_return ctx')
     | (ctx', Some e) => if is_Exception (exc_class e) then Ok (_return ctx') else Raise e
     end) /\
  (forall m,
     module_in_use import_module (after c1) = Some m ->
     m method_name = None ->
     fst (fst (invoke import_module method_name (after c1) c2))
     = Ok {| _return_value := PyBool false; _return_args := []; _return_kwargs := ∅ |}) /\
  (module_in_use import_module (after c1) = None ->
   fst (fst (invoke import_module method_name (after c1) c2))
   = Ok {| _return_value := PyBool false; _return_args := []; _return_kwargs := ∅ |}).
Proof.
  assert (forall s c, match invoke import_module method_name s c with
                      | (Ok _, s', _) => context s' = None
                      | (Raise _, _, _) => True
                      end) as Hclear.
  { intros s c. destruct (module_in_use import_module s) as [m|] eqn:Hm.
    - destruct (m method_name) as [method|] eqn:Hmeth.
      + destruct (method (fresh_context c) (i_arg c) (i_kwargs c)) as [ctx' o] eqn:Hrun.
        rewrite (invoke_call _ _ _ _ _ _ _ _ Hm Hmeth Hrun).
        destruct o as [e|]; [destruct (is_Exception _)|]; done.
      + by rewrite (invoke_absent _ _ _ _ _ Hm Hmeth).
    - by rewrite (invoke_no_module _ _ _ _ Hm). }
  intros after.
  split; [by rewrite before_do_eq|]. split; [done|]. split.
  { unfold after.
    destruct (invoke_state import_module method_name self c1) as [x1 ->].
    destruct (invoke_state import_module method_name self c1') as [x2 ->].
    by rewrite !invoke_forgets_context. }
  split; [apply Hclear|]. split; [apply Hclear|]. split; [done|]. split; [|split].
  - intros m method Hm Hmeth.
    destruct (method (fresh_context c2) (i_arg c2) (i_kwargs c2)) as [ctx' o] eqn:Hrun.
    rewrite (invoke_call _ _ _ _ _ _ _ _ Hm Hmeth Hrun).
    destruct o as [e|]; [destruct (is_Exception _)|]; done.
  - intros m Hm Hmeth. by rewrite (invoke_absent _ _ _ _ _ Hm Hmeth).
  - intros Hm. by rewrite (invoke_no_module _ _ _ _ Hm).
Qed.

(** Two invocations of the sample script whose [init] reports success
    with its extra arguments when it has any: the first, with an
    argument, returns a success envelope; the second, without, returns
    the default failure envelope. *)
Lemma C8_independent_witness :
  fst (fst (invoke (Sample.importing (Sample.module_with Sample.by_arguments)) "init"
              Sample.script Sample.call_with_argument))
    = Ok {| _return_value := PyBool true; _return_args := [PyInt 1];
            _return_kwargs := ∅ |} /\
  fst (fst (invoke (Sample.importing (Sample.module_with Sample.by_arguments)) "init"
              (snd (fst (invoke (Sample.importing (Sample.module_with Sample.by_arguments))
                           "init" Sample.script Sample.call_with_argument)))
              Sample.call))
    = Ok {| _return_value := PyBool false; _return_args := []; _return_kwargs := ∅ |}.
Proof.
  split; [reflexivity|].
  exact (proj1 (proj2 (proj2 (proj2 (proj2 (proj2 (proj2
           (C8_invocations_are_independent
              (Sample.importing (Sample.module_with Sample.by_arguments)) "init"
              Sample.script Sample.call_with_argument Sample.call_with_argument
              Sample.call)))))))
           (Sample.module_with Sample.by_arguments) Sample.by_arguments
           eq_refl eq_refl).
Defined.

(** ** The return envelope *)

(** C10, as the code has it: for a key that is a string,
    [get_return(key)] returns the value the named payload holds under
    it, and [None] when it holds none; for any other hashable key it
    returns [None]; for a key that cannot be hashed (a list, a
    dictionary) it raises [TypeError]. *)
Theorem C10_get_return_by_key (value : PyValue) (args : list PyValue)
    (kwargs : gmap string PyValue) (key : PyValue) :
  PluginReturn.get_return
    {| _return_value := value; _return_args := args; _return_kwargs := kwargs |} key =
  match key with
  | PyStr s =>
      match kwargs !! s with
      | Some v => Ok v
      | None => Ok PyNone
      end
  | PyList _ | PyDict _ => Raise {| exc_class := TypeError; exc_text := "unhashable type" |}
  | _ => Ok PyNone
  end.
Proof.
  destruct key as [| | |s| | |]; try reflexivity.
  unfold PluginReturn.get_return, PluginReturn.kwargs. simpl.
  destruct (kwargs !! s) as [v|] eqn:E.
  - rewrite bool_decide_eq_true_2; [done|]. apply elem_of_dom. by exists v.
  - by destruct (bool_decide _).
Qed.

(** C10 as stated fails for a key that cannot be hashed: the empty list
    is under no name of the default envelope, and [get_return] raises
    instead of returning [None]. *)
Lemma C10_counterexample_unhashable_key :
  PluginReturn.get_return PluginReturn.init (PyList [])
  = Raise {| exc_class := TypeError; exc_text := "unhashable type" |}.
Proof. reflexivity. Qed.

(** ** The plugin manager *)

(** The table of the manager never has the script kind, nor any
    synthesised script type. *)
Lemma init_has_no_script_kind (path : string) (stdio : option StdioObj) :
  loaders_of (PluginManager_init path stdio) (EnumMember PY_SCRIPT) = None /\
  forall name value, loaders_of (PluginManager_init path stdio) (ScriptType name value) = None.
Proof. split; [|done]. unfold PluginManager_init. simpl. apply lookup_delete_eq. Qed.

(** [get_best_plugin] never adds a kind to the table: what is
    unregistered stays unregistered. *)
Lemma manager_table_keys_fixed (glob : string -> list string) (self : PluginManager)
    (plugin_type : PluginTypeObj) (component_name version : string) :
  dom (component_plugin_loaders
         (snd (fst (Manager_get_best_plugin glob self plugin_type component_name version))))
  = dom (component_plugin_loaders self).
Proof.
  unfold Manager_get_best_plugin.
  destruct plugin_type as [t|name value]; [|done]. simpl.
  destruct (component_plugin_loaders self !! t) as [loaders|] eqn:Hl; [|done].
  destruct (match loaders !! component_name with
            | Some loader => Ok loader
            | None => _
            end) as [loader|e]; [|done].
  destruct (get_best_plugin glob loader version) as [[r loader'] ev]. simpl.
  rewrite dom_insert_L. apply elem_of_dom_2 in Hl.
  apply subseteq_union_1_L. by apply singleton_subseteq_l.
Qed.

(** C9: for a plugin kind that the manager's table does not hold,
    [get_best_plugin] returns [None] without raising, emits nothing and
    leaves the manager, with both loader caches, as it was. *)
Theorem C9_unregistered_kind_is_none (glob : string -> list string) (self : PluginManager)
    (plugin_type : PluginTypeObj) (component_name version : string) :
  loaders_of self plugin_type = None ->
  Manager_get_best_plugin glob self plugin_type component_name version = (Ok None, self, []).
Proof.
  intros H. unfold Manager_get_best_plugin.
  destruct plugin_type as [t|name value]; [|done]. by rewrite H.
Qed.

Lemma C9_unregistered_kind_witness :
  Manager_get_best_plugin (Sample.glob_of ["3.1.0"])
    (PluginManager_init "/obd/plugins" (Some Sample.console))
    (EnumMember PY_SCRIPT) "obproxy" "3.1.0"
  = (Ok None, PluginManager_init "/obd/plugins" (Some Sample.console), []).
Proof.
  apply (C9_unregistered_kind_is_none (Sample.glob_of ["3.1.0"])
           (PluginManager_init "/obd/plugins" (Some Sample.console))
           (EnumMember PY_SCRIPT) "obproxy" "3.1.0").
  vm_compute. reflexivity.
Defined.

(** ** Manifests *)

Lemma for_each_stops {V : Type}
    (step : list (PyValue * V) -> PyValue -> Result (list (PyValue * V)))
    (good rest : list PyValue) (bad : PyValue) (d0 d : list (PyValue * V)) (e : PyExc) :
  for_each step good d0 = (Ok tt, d) ->
  step d bad = Raise e ->
  for_each step (good ++ bad :: rest) d0 = (Raise e, d).
Proof.
  revert d0. induction good as [|x good IH]; intros d0; simpl.
  - intros [= <-] Hbad. by rewrite Hbad.
  - destruct (step d0 x); [apply IH | done].
Qed.

(** What the [try] block leaves behind when the manifest fails. *)
Lemma parse_failure {V : Type} (load_yaml : string -> Result PyValue)
    (step : list (PyValue * V) -> PyValue -> Result (list (PyValue * V)))
    (path : string) (d : list (PyValue * V)) :
  ManifestFailure load_yaml step path d ->
  exists e, parse load_yaml step path = (Raise e, d).
Proof.
  unfold parse. intros [e He | doc e Hdoc Hit | doc good bad rest d' e Hdoc Hit Hgood Hbad].
  - rewrite He. eauto.
  - rewrite Hdoc, Hit. eauto.
  - rewrite Hdoc, Hit. rewrite (for_each_stops _ _ _ _ _ _ _ Hgood Hbad). eauto.
Qed.

(** C5, as the code has it: an accessor whose manifest is missing or
    malformed raises nothing and returns the entries of the records
    that precede the failure, which is the empty mapping when the file
    cannot be read or parsed, when the document is not a sequence, and
    when the first record already fails; the result is cached.  The
    accessors raise on no input at all. *)
Theorem C5_manifest_failure_is_swallowed (load_yaml : string -> Result PyValue) :
  (forall (self : ParamPlugin) d,
     _src_data self = None ->
     ManifestFailure load_yaml params_step (def_param_yaml_path self) d ->
     params load_yaml self =
     (Ok d, {| param_base := param_base self;
               def_param_yaml_path := def_param_yaml_path self;
               _src_data := Some d |})) /\
  (forall (self : InstallPlugin) d,
     _file_map self = None ->
     ManifestFailure load_yaml file_map_step (file_map_path self) d ->
     file_map load_yaml self =
     (Ok d, {| install_base := install_base self;
               file_map_path := file_map_path self;
               _file_map := Some d |})) /\
  (forall self : ParamPlugin, exists d, fst (params load_yaml self) = Ok d) /\
  (forall self : InstallPlugin, exists d, fst (file_map load_yaml self) = Ok d).
Proof.
  repeat split.
  - intros self d Hnone Hfail. unfold params. rewrite Hnone.
    destruct (parse_failure _ _ _ _ Hfail) as [e ->]. reflexivity.
  - intros self d Hnone Hfail. unfold file_map. rewrite Hnone.
    destruct (parse_failure _ _ _ _ Hfail) as [e ->]. reflexivity.
  - intros self. unfold params. destruct (_src_data self); [by eexists|].
    destruct (parse load_yaml params_step _) as [r d]. by eexists.
  - intros self. unfold file_map. destruct (_file_map self); [by eexists|].
    destruct (parse load_yaml file_map_step _) as [r d]. by eexists.
Qed.

Lemma C5_manifest_failure_witness :
  params Sample.no_such_file Sample.param_plugin =
  (Ok [], {| param_base := param_base Sample.param_plugin;
             def_param_yaml_path := def_param_yaml_path Sample.param_plugin;
             _src_data := Some [] |}) /\
  file_map (Sample.yaml_is Sample.files_second_pathless) Sample.install_plugin =
  (Ok [(PyStr "./bin/obproxy",
        FileItem_init (PyStr "./bin/obproxy") (PyStr "./bin/obproxy") PyNone)],
   {| install_base := install_base Sample.install_plugin;
      file_map_path := file_map_path Sample.install_plugin;
      _file_map := Some [(PyStr "./bin/obproxy",
                          FileItem_init (PyStr "./bin/obproxy") (PyStr "./bin/obproxy")
                            PyNone)] |}).
Proof.
  split.
  - apply (proj1 (C5_manifest_failure_is_swallowed Sample.no_such_file));
      [reflexivity|].
    apply (load_fails _ _ _ {| exc_class := IOError;
                               exc_text := def_param_yaml_path Sample.param_plugin |}).
    reflexivity.
  - apply (proj1 (proj2 (C5_manifest_failure_is_swallowed
                           (Sample.yaml_is Sample.files_second_pathless))));
      [reflexivity|].
    apply (record_fails _ _ _ Sample.files_second_pathless
             [PyDict [(PyStr "src_path", PyStr "bin/obproxy")]]
             (PyDict [(PyStr "target_path", PyStr "bin")]) []
             _ {| exc_class := KeyError; exc_text := "src_path" |}); reflexivity.
Defined.

(** C5 as stated fails for a manifest whose second record lacks its
    name: the manifest is malformed, and the accessor returns the entry
    of the first record instead of an empty mapping. *)
Lemma C5_counterexample_partial_mapping :
  params_step [(PyStr "listen_port", Sample.listen_port)] (PyDict [(PyStr "default", PyInt 1)])
    = Raise {| exc_class := KeyError; exc_text := "name" |} /\
  fst (params (Sample.yaml_is Sample.parameters_second_nameless) Sample.param_plugin)
    = Ok [(PyStr "listen_port", Sample.listen_port)].
Proof. split; reflexivity. Qed.

(** * Further properties *)

(** ** The version order, continued *)

(** X1: the comparison the resolver applies to versions is a strict
    total order on token lists: no version is below itself, below is
    transitive, and two different versions are always comparable. *)
Theorem version_order_strict_total (a b c : list string) :
  list_ltb a a = false /\
  (list_ltb a b = true -> list_ltb b c = true -> list_ltb a c = true) /\
  (a = b \/ list_ltb a b = true \/ list_ltb b a = true) /\
  (list_ltb a b = true -> list_ltb b a = false).
Proof.
  split; [apply list_ltb_irrefl|]. split; [apply list_ltb_trans|].
  split; [apply list_ltb_total | apply list_ltb_asym].
Qed.

Lemma version_order_witness :
  list_ltb (split "." "2.0.0") (split "." "2.0.0") = false /\
  (list_ltb (split "." "2.0.0") (split "." "2.1.0") = true ->
   list_ltb (split "." "2.1.0") (split "." "3.0.0") = true ->
   list_ltb (split "." "2.0.0") (split "." "3.0.0") = true) /\
  (split "." "2.0.0" = split "." "2.1.0" \/
   list_ltb (split "." "2.0.0") (split "." "2.1.0") = true \/
   list_ltb (split "." "2.1.0") (split "." "2.0.0") = true) /\
  (list_ltb (split "." "2.0.0") (split "." "2.1.0") = true ->
   list_ltb (split "." "2.1.0") (split "." "2.0.0") = false).
Proof.
  exact (version_order_strict_total (split "." "2.0.0") (split "." "2.1.0")
           (split "." "3.0.0")).
Defined.

Lemma lex_ltb_prefix {A : Type} (eqb ltb : A -> A -> bool) `{!StrictTotal eqb ltb}
    (a b : list A) :
  lex_ltb eqb ltb a (a ++ b) = match b with [] => false | _ => true end.
Proof.
  induction a as [|x a IH]; simpl.
  - by destruct b.
  - by rewrite (st_eqb_refl eqb ltb).
Qed.

(** X2: a version is below every proper extension of it: with more
    tokens after the same ones the version is larger, whatever the
    tokens are, so "3.1" is below "3.1.0" and the two are not the same
    version. *)
Theorem version_below_its_extensions (a b : list string) :
  list_ltb a (a ++ b) = negb (bool_decide (b = [])) /\
  list_ltb (a ++ b) a = false /\
  list_eqb a (a ++ b) = bool_decide (b = []).
Proof.
  assert (list_ltb a (a ++ b) = negb (bool_decide (b = []))) as H.
  { unfold list_ltb. rewrite (lex_ltb_prefix _ _). by destruct b. }
  split; [done|]. split.
  - destruct b as [|y b]; [rewrite app_nil_r; apply list_ltb_irrefl|].
    apply list_ltb_asym. by rewrite H.
  - unfold list_eqb. destruct b as [|y b].
    + rewrite app_nil_r. by rewrite !bool_decide_eq_true_2.
    + rewrite (bool_decide_eq_false_2 (a = _)), bool_decide_eq_false_2; try done.
      intros E. apply (f_equal length) in E. rewrite length_app in E. simpl in E. lia.
Qed.

(** ** Resolution, continued *)

(** What the loop of [get_best_plugin] ends with, in every case. *)
Lemma scan_cases (requested : list string) (found acc : list Plugin) :
  (exists pre p post,
     found = pre ++ p :: post /\
     (forall q, In q pre -> version q <> requested) /\
     version p = requested /\
     scan requested found acc = inl p) \/
  ((forall q, In q found -> version q <> requested) /\
   scan requested found acc =
   inr (acc ++ List.filter (fun q => list_ltb (version q) requested) found)).
Proof.
  assert ((exists q, In q found /\ version q = requested) \/
          (forall q, In q found -> version q <> requested)) as [Hex|Hno].
  { induction found as [|x found IH]; [right; by intros q []|].
    destruct (decide (version x = requested)) as [Hx|Hx].
    - left. exists x. split; [by left | done].
    - destruct IH as [(q & Hq & Hv)|Hno].
      + left. exists q. split; [by right | done].
      + right. intros q [<-|Hq]; auto. }
  - left. destruct Hex as (q & Hin & Hq).
    assert (exists pre p post, found = pre ++ p :: post /\
              (forall q, In q pre -> version q <> requested) /\
              version p = requested) as (pre & p & post & -> & Hpre & Hp).
    { induction found as [|x found IH]; [done|].
      destruct (decide (version x = requested)) as [Hx|Hx].
      - exists [], x, found. by repeat split.
      - destruct Hin as [->|Hin]; [done|].
        destruct (IH Hin) as (pre & p & post & -> & Hpre & Hp).
        exists (x :: pre), p, post. repeat split; [|done].
        intros y [<-|Hy]; auto. }
    exists pre, p, post. repeat split; try done. by apply scan_exact.
  - right. split; [done|]. by apply scan_no_exact.
Qed.

(** X3: whatever [get_best_plugin] returns is one of the discovered
    plugins and its version is the requested one or below it, in the
    loader's comparison: a plugin above the request is never returned.
    It returns [None] exactly when no discovered version is at or below
    the request. *)
Theorem get_best_plugin_never_above glob (self self' : ComponentPluginLoader) (v : string)
    (found : list Plugin) :
  get_plugins glob self = (Ok found, self') ->
  exists r ev,
    get_best_plugin glob self v = (Ok r, self', ev) /\
    match r with
    | Some p => In p found /\ version_leb (version p) (split "." v) = true
    | None => forall q, In q found -> version_leb (version q) (split "." v) = false
    end.
Proof.
  intros Hget. unfold get_best_plugin. rewrite Hget. unfold select.
  destruct (scan_cases (split "." v) found [])
    as [(pre & p & post & -> & Hpre & Hp & ->)|[Hno ->]].
  - eexists _, _. split; [reflexivity|]. split.
    + apply in_or_app. right. by left.
    + unfold version_leb. apply list_eqb_true in Hp. by rewrite Hp.
  - simpl.
    assert (forall q, In q (List.filter (fun q => list_ltb (version q) (split "." v)) found)
                      <-> In q found /\ version_leb (version q) (split "." v) = true)
      as Hbelow.
    { intros q. rewrite filter_In. split; intros [Hq Hlt]; split; auto.
      - by rewrite version_leb_neq by auto.
      - by rewrite version_leb_neq in Hlt by auto. }
    destruct (List.filter _ found) as [|p ps].
    + eexists _, _. split; [reflexivity|]. intros q Hq.
      destruct (version_leb (version q) (split "." v)) eqn:E; [|done].
      destruct (proj2 (Hbelow q) (conj Hq E)).
    + eexists _, _. split; [reflexivity|].
      apply Hbelow. apply (max_by_version p ps).
Qed.

Lemma get_best_plugin_never_above_witness :
  exists r ev,
    get_best_plugin (Sample.glob_of ["2.0.0"; "2.1.0"; "3.0.0"]) (Sample.loader None) "2.5.0"
    = (Ok r,
       snd (get_plugins (Sample.glob_of ["2.0.0"; "2.1.0"; "3.0.0"]) (Sample.loader None)),
       ev) /\
    match r with
    | Some p =>
        In p [Sample.plugin "2.0.0"; Sample.plugin "2.1.0"; Sample.plugin "3.0.0"] /\
        version_leb (version p) (split "." "2.5.0") = true
    | None =>
        forall q, In q [Sample.plugin "2.0.0"; Sample.plugin "2.1.0"; Sample.plugin "3.0.0"] ->
                  version_leb (version q) (split "." "2.5.0") = false
    end.
Proof.
  apply (get_best_plugin_never_above (Sample.glob_of ["2.0.0"; "2.1.0"; "3.0.0"])
           (Sample.loader None)).
  vm_compute. reflexivity.
Defined.

(** ** Script execution, continued *)

(** X4: an exception of the entry function that is not an [Exception]
    ([KeyboardInterrupt], [SystemExit]) reaches the caller of the
    invocation: nothing is logged, [after_do] does not run, so the module
    is not unloaded and the plugin keeps the context, with the envelope
    as the function left it. *)
Theorem base_exception_escapes (import_module : list string -> string -> option PyModule)
    (method_name : string) (self : PyScriptPlugin) (c : Invocation) (m : PyModule)
    (method : Method) (ctx' : PluginContext) (e : PyExc) :
  module_in_use import_module self = Some m ->
  m method_name = Some method ->
  method (fresh_context c) (i_arg c) (i_kwargs c) = (ctx', Some e) ->
  is_Exception (exc_class e) = false ->
  exists self',
    invoke import_module method_name self c
      = (Raise e, self', load_events self ++ [CallEntry method_name]) /\
    context self' = Some ctx' /\
    module self' = Some m /\
    forallb (fun ev => negb (is_unload ev || is_output ev))
      (load_events self ++ [CallEntry method_name]) = true.
Proof.
  intros Hm Hmeth Hrun Hexc.
  rewrite (invoke_call _ _ _ _ _ _ _ _ Hm Hmeth Hrun), Hexc.
  eexists. split; [reflexivity|]. repeat split; [done|].
  unfold load_events. by destruct (module self).
Qed.

Lemma base_exception_escapes_witness :
  exists self',
    invoke (Sample.importing
              (Sample.module_with
                 (fun ctx _ _ => (PluginContext.return_true ctx [] ∅,
                                  Some {| exc_class := SystemExit; exc_text := "1" |}))))
      "init" Sample.script Sample.call
      = (Raise {| exc_class := SystemExit; exc_text := "1" |}, self',
         load_events Sample.script ++ [CallEntry "init"]) /\
    context self' = Some (PluginContext.return_true (fresh_context Sample.call) [] ∅) /\
    module self'
      = Some (Sample.module_with
                (fun ctx _ _ => (PluginContext.return_true ctx [] ∅,
                                 Some {| exc_class := SystemExit; exc_text := "1" |}))) /\
    forallb (fun ev => negb (is_unload ev || is_output ev))
      (load_events Sample.script ++ [CallEntry "init"]) = true.
Proof.
  apply (base_exception_escapes _ "init" Sample.script Sample.call _
           (fun ctx _ _ => (PluginContext.return_true ctx [] ∅,
                            Some {| exc_class := SystemExit; exc_text := "1" |})));
    reflexivity.
Defined.

(** X5: when the module cannot be imported the invocation still returns
    the default failure envelope; it calls nothing and unloads nothing,
    and the plugin is left without module, so that the next invocation
    imports again. *)
Theorem failed_import_gives_default (import_module : list string -> string -> option PyModule)
    (method_name : string) (self : PyScriptPlugin) (c : Invocation) :
  module_in_use import_module self = None ->
  exists self',
    invoke import_module method_name self c
      = (Ok PluginReturn.init, self',
         [AddLibsPath (libs_path self); ImportModule (import_name self)]) /\
    module self' = None /\
    context self' = None /\
    load_events self' = [AddLibsPath (libs_path self); ImportModule (import_name self)].
Proof.
  intros Hm. rewrite (invoke_no_module _ _ _ _ Hm).
  assert (module self = None) as Hnone.
  { unfold module_in_use in Hm. by destruct (module self). }
  eexists. unfold load_events. rewrite Hnone. split; [reflexivity|].
  cbn. rewrite Hm. by repeat split.
Qed.

Lemma failed_import_witness :
  exists self',
    invoke (fun _ _ => None) "init" Sample.script Sample.call
      = (Ok PluginReturn.init, self',
         [AddLibsPath (libs_path Sample.script); ImportModule (import_name Sample.script)]) /\
    module self' = None /\
    context self' = None /\
    load_events self'
      = [AddLibsPath (libs_path Sample.script); ImportModule (import_name Sample.script)].
Proof.
  apply (failed_import_gives_default (fun _ _ => None) "init" Sample.script Sample.call).
  reflexivity.
Defined.

(** What an invocation emits starts with the events of the import, if
    there is one, and has no import after that. *)
Lemma invoke_events (import_module : list string -> string -> option PyModule)
    (method_name : string) (self : PyScriptPlugin) (c : Invocation) :
  exists rest,
    snd (invoke import_module method_name self c) = load_events self ++ rest /\
    forallb (fun e => negb (is_load e)) rest = true.
Proof.
  assert (forall msg, forallb (fun e => negb (is_load e))
                        (emit (i_stdio c) "exception" msg) = true) as Hemit.
  { intros msg. destruct (i_stdio c) as [io|]; [|done]. simpl.
    destruct (io_truthy io); [|done]. by destruct (bool_decide _). }
  destruct (module_in_use import_module self) as [m|] eqn:Hm.
  - destruct (m method_name) as [method|] eqn:Hmeth.
    + destruct (method (fresh_context c) (i_arg c) (i_kwargs c)) as [ctx' o] eqn:Hrun.
      rewrite (invoke_call _ _ _ _ _ _ _ _ Hm Hmeth Hrun).
      destruct o as [e|]; [destruct (is_Exception _)|]; simpl;
        eexists; (split; [reflexivity|]); try done.
      simpl. rewrite forallb_app, Hemit. done.
    + rewrite (invoke_absent _ _ _ _ _ Hm Hmeth). by eexists.
  - rewrite (invoke_no_module _ _ _ _ Hm). exists []. by rewrite app_nil_r.
Qed.

(** X6: a plugin that has its module keeps it: [after_do] unloads the
    module but does not forget it, so the next invocation of the plugin
    imports nothing, works with the module object it already holds
    whatever an import would find by then, and unloads once more. *)
Theorem loaded_module_is_kept (import_module import_module' : list string -> string -> option PyModule)
    (method_name : string) (self : PyScriptPlugin) (c1 c2 : Invocation) (m : PyModule) :
  module_in_use import_module self = Some m ->
  let self1 := snd (fst (invoke import_module method_name self c1)) in
  module self1 = Some m /\
  invoke import_module' method_name self1 c2 = invoke import_module method_name self1 c2 /\
  forallb (fun e => negb (is_load e)) (snd (invoke import_module' method_name self1 c2)) = true /\
  (forall r2 self2 ev2,
     invoke import_module' method_name self1 c2 = (Ok r2, self2, ev2) ->
     exists ev, ev2 = ev ++ [RemoveLibsPath (libs_path self); ExportModule (import_name self)]).
Proof.
  intros Hm self1.
  assert (exists x, self1 = set_context (set_module self (Some m)) x) as [x Hself1].
  { unfold self1. destruct (invoke_state import_module method_name self c1) as [x ->].
    rewrite Hm. by exists x. }
  assert (module self1 = Some m) as Hmod by (by rewrite Hself1).
  assert (forall im, module_in_use im self1 = Some m) as Huse.
  { intros im. unfold module_in_use. by rewrite Hmod. }
  split; [done|]. split; [|split].
  - unfold invoke, pyScriptPluginExec, before_do, _import. by rewrite Hmod.
  - destruct (invoke_events import_module' method_name self1 c2) as (rest & -> & Hrest).
    unfold load_events. by rewrite Hmod.
  - intros r2 self2 ev2.
    assert (libs_path self1 = libs_path self /\ import_name self1 = import_name self)
      as [Hlibs Hname] by (by rewrite Hself1).
    destruct (m method_name) as [method|] eqn:Hmeth.
    + destruct (method (fresh_context c2) (i_arg c2) (i_kwargs c2)) as [ctx' o] eqn:Hrun.
      rewrite (invoke_call _ _ _ _ _ _ _ _ (Huse _) Hmeth Hrun).
      unfold unload_events. rewrite Hlibs, Hname.
      destruct o as [e|]; [destruct (is_Exception _)|]; intros [= <- <- <-].
      * eexists. rewrite app_comm_cons, app_assoc. reflexivity.
      * exists (load_events self1 ++ [CallEntry method_name]).
        by rewrite <- app_assoc.
    + rewrite (invoke_absent _ _ _ _ _ (Huse _) Hmeth).
      unfold unload_events. rewrite Hlibs, Hname. intros [= <- <- <-]. by eexists.
Qed.

Lemma loaded_module_is_kept_witness :
  let self1 :=
    snd (fst (invoke (Sample.importing (Sample.module_with Sample.raises)) "init"
                Sample.script Sample.call)) in
  module self1 = Some (Sample.module_with Sample.raises) /\
  invoke (fun _ _ => None) "init" self1 Sample.call
    = invoke (Sample.importing (Sample.module_with Sample.raises)) "init" self1 Sample.call /\
  forallb (fun e => negb (is_load e))
    (snd (invoke (fun _ _ => None) "init" self1 Sample.call)) = true /\
  (forall r2 self2 ev2,
     invoke (fun _ _ => None) "init" self1 Sample.call = (Ok r2, self2, ev2) ->
     exists ev, ev2 = ev ++ [RemoveLibsPath (libs_path Sample.script);
                            ExportModule (import_name Sample.script)]).
Proof.
  apply (loaded_module_is_kept (Sample.importing (Sample.module_with Sample.raises))
           (fun _ _ => None) "init" Sample.script Sample.call Sample.call
           (Sample.module_with Sample.raises)).
  reflexivity.
Defined.

(** X7: when the entry function returns, the invocation returns the
    envelope of the context as the function left it, writes nothing to
    stdio, calls the function once, between import and unload, and
    clears the plugin's context. *)
Theorem normal_return_passes_envelope (import_module : list string -> string -> option PyModule)
    (method_name : string) (self : PyScriptPlugin) (c : Invocation) (m : PyModule)
    (method : Method) (ctx' : PluginContext) :
  module_in_use import_module self = Some m ->
  m method_name = Some method ->
  method (fresh_context c) (i_arg c) (i_kwargs c) = (ctx', None) ->
  exists self',
    invoke import_module method_name self c
      = (Ok (PluginContext.get_return ctx'), self',
         load_events self ++ [CallEntry method_name] ++
         [RemoveLibsPath (libs_path self); ExportModule (import_name self)]) /\
    context self' = None /\
    forallb (fun e => negb (is_output e))
      (load_events self ++ [CallEntry method_name] ++
       [RemoveLibsPath (libs_path self); ExportModule (import_name self)]) = true.
Proof.
  intros Hm Hmeth Hrun. rewrite (invoke_call _ _ _ _ _ _ _ _ Hm Hmeth Hrun).
  eexists. split; [reflexivity|]. split; [done|].
  unfold load_events. by destruct (module self).
Qed.

Lemma normal_return_witness :
  exists self',
    invoke (Sample.importing (Sample.module_with (Sample.returns_true PyNone PyNone)))
      "init" Sample.script Sample.call
      = (Ok (PluginContext.get_return
               (PluginContext.return_true (fresh_context Sample.call) [PyNone; PyNone]
                  {["x" := PyInt 1]})),
         self',
         load_events Sample.script ++ [CallEntry "init"] ++
         [RemoveLibsPath (libs_path Sample.script); ExportModule (import_name Sample.script)]) /\
    context self' = None /\
    forallb (fun e => negb (is_output e))
      (load_events Sample.script ++ [CallEntry "init"] ++
       [RemoveLibsPath (libs_path Sample.script); ExportModule (import_name Sample.script)])
      = true.
Proof.
  apply (normal_return_passes_envelope
           (Sample.importing (Sample.module_with (Sample.returns_true PyNone PyNone)))
           "init" Sample.script Sample.call
           (Sample.module_with (Sample.returns_true PyNone PyNone))
           (Sample.returns_true PyNone PyNone)); reflexivity.
Defined.

(** ** Dictionaries *)

Lemma key_eqb_refl (k : PyValue) : hashable k = true -> key_eqb k k = true.
Proof.
  destruct k as [|b|z|s|l|kvs|n]; simpl; try done; intros _.
  - by apply bool_decide_eq_true_2.
  - apply Z.eqb_refl.
  - apply String.eqb_refl.
  - apply Nat.eqb_refl.
Qed.

(** Two keys are the same key when they have the same code: [True] and
    [False] are the numbers 1 and 0. *)
Lemma key_eqb_code (a b : PyValue) :
  key_eqb a b = true <-> key_code a = key_code b /\ hashable a = true.
Proof.
  destruct a as [|x|x|x|x|x|x], b as [|y|y|y|y|y|y]; simpl;
    rewrite ?bool_decide_eq_true, ?Z.eqb_eq, ?String.eqb_eq, ?Nat.eqb_eq;
    try (split; [done | by intros [? ?]]);
    try (split; [intros ->; by split | intros [[= ->] _]; done]).
  destruct x, y; split; try done; by intros [? ?].
Qed.

Lemma key_eqb_sym (a b : PyValue) : key_eqb a b = key_eqb b a.
Proof.
  destruct a as [|x|x|x|x|x|x], b as [|y|y|y|y|y|y]; simpl; try done.
  - destruct x, y; done.
  - apply Z.eqb_sym.
  - apply String.eqb_sym.
  - apply Nat.eqb_sym.
Qed.

Lemma key_eqb_trans (a b c : PyValue) :
  key_eqb a b = true -> key_eqb b c = true -> key_eqb a c = true.
Proof.
  rewrite !key_eqb_code. intros [Hab Ha] [Hbc _]. split; congruence.
Qed.

Lemma key_eqb_false_l (a b c : PyValue) :
  key_eqb a b = true -> key_eqb b c = false -> key_eqb a c = false.
Proof.
  intros Hab Hbc. destruct (key_eqb a c) eqn:Hac; [|done].
  rewrite key_eqb_sym in Hab. by rewrite (key_eqb_trans _ _ _ Hab Hac) in Hbc.
Qed.

(** Reading back what was stored. *)
Lemma dict_get_put_eq {V : Type} (d : list (PyValue * V)) (k : PyValue) (v : V) :
  hashable k = true -> dict_get (dict_put d k v) k = Some v.
Proof.
  intros Hk. induction d as [|[k' v'] d IH]; simpl.
  - by rewrite key_eqb_refl.
  - destruct (key_eqb k' k) eqn:E; simpl; by rewrite E.
Qed.

(** Storing under one key leaves the other keys alone. *)
Lemma dict_get_put_ne {V : Type} (d : list (PyValue * V)) (k k2 : PyValue) (v : V) :
  key_eqb k k2 = false -> dict_get (dict_put d k v) k2 = dict_get d k2.
Proof.
  intros Hne. induction d as [|[k' v'] d IH]; simpl.
  - by rewrite Hne.
  - destruct (key_eqb k' k) eqn:E; simpl.
    + by rewrite (key_eqb_false_l _ _ _ E Hne).
    + by rewrite IH.
Qed.

Lemma dict_put_keys {V : Type} (d : list (PyValue * V)) (k : PyValue) (v : V) :
  map fst (dict_put d k v) =
  match dict_get d k with
  | Some _ => map fst d
  | None => map fst d ++ [k]
  end.
Proof.
  induction d as [|[k' v'] d IH]; simpl; [done|].
  destruct (key_eqb k' k); simpl; [done|]. rewrite IH. by destruct (dict_get d k).
Qed.

Lemma dict_get_none {V : Type} (d : list (PyValue * V)) (k : PyValue) :
  dict_get d k = None <-> forall kv, In kv d -> key_eqb (fst kv) k = false.
Proof.
  induction d as [|[k' v'] d IH]; simpl.
  - split; [by intros _ kv [] | done].
  - destruct (key_eqb k' k) eqn:E.
    + split; [done|]. intros H. specialize (H (k', v') (or_introl eq_refl)).
      simpl in H. congruence.
    + rewrite IH. split.
      * intros H kv [<-|Hin]; auto.
      * intros H kv Hin. apply H. by right.
Qed.

Lemma dict_put_well_keyed {V : Type} (d : list (PyValue * V)) (k : PyValue) (v : V) :
  hashable k = true -> well_keyed d -> well_keyed (dict_put d k v).
Proof.
  intros Hk. induction d as [|[k' v'] d IH]; simpl.
  - by intros _.
  - intros (Hk' & Hfresh & Hd). destruct (key_eqb k' k) eqn:E; simpl.
    + by repeat split.
    + repeat split; [done| |by apply IH].
      intros kv Hin.
      assert (In (fst kv) (map fst (dict_put d k v))) as Hkey by (by apply in_map).
      rewrite dict_put_keys in Hkey.
      assert (In (fst kv) (map fst d) \/ fst kv = k) as [Hold| ->].
      { destruct (dict_get d k); [by left|].
        apply in_app_or in Hkey as [?|[<-|[]]]; auto. }
      * apply in_map_iff in Hold as (kv' & <- & Hin'). by apply Hfresh.
      * done.
Qed.

(** In a dictionary every entry is found under its own key. *)
Lemma dict_get_own {V : Type} (d : list (PyValue * V)) (k : PyValue) (v : V) :
  well_keyed d -> In (k, v) d -> dict_get d k = Some v.
Proof.
  induction d as [|[k' v'] d IH]; simpl; [done|].
  intros (Hk' & Hfresh & Hd) [[= -> ->]|Hin].
  - by rewrite key_eqb_refl.
  - pose proof (Hfresh _ Hin) as Hne. simpl in Hne. rewrite Hne. by apply IH.
Qed.

Lemma dict_setitem_ok {V : Type} (d d' : list (PyValue * V)) (k : PyValue) (v : V) :
  dict_setitem d k v = Ok d' -> hashable k = true /\ d' = dict_put d k v.
Proof. unfold dict_setitem. destruct (hashable k); [by intros [= <-] | done]. Qed.

Lemma dict_get_put_eqb {V : Type} (d : list (PyValue * V)) (k k2 : PyValue) (v : V) :
  key_eqb k k2 = true -> dict_get (dict_put d k v) k2 = Some v.
Proof.
  intros Hk. induction d as [|[k' v'] d IH]; simpl.
  - by rewrite Hk.
  - destruct (key_eqb k' k) eqn:E; simpl.
    + by rewrite (key_eqb_trans _ _ _ E Hk).
    + destruct (key_eqb k' k2) eqn:E2; [|done].
      rewrite key_eqb_sym in Hk. rewrite (key_eqb_trans _ _ _ E2 Hk) in E. done.
Qed.

Lemma dict_get_app {V : Type} (d1 d2 : list (PyValue * V)) (k : PyValue) :
  dict_get (d1 ++ d2) k =
  match dict_get d1 k with
  | Some v => Some v
  | None => dict_get d2 k
  end.
Proof.
  induction d1 as [|[k' v'] d1 IH]; simpl; [done|]. by destruct (key_eqb k' k).
Qed.

(** Where the entries of a dictionary come from after an assignment. *)
Lemma dict_put_entries {V : Type} (d : list (PyValue * V)) (k : PyValue) (v : V)
    (kv : PyValue * V) :
  In kv (dict_put d k v) ->
  In kv d \/ (snd kv = v /\ key_eqb (fst kv) k = true) \/ kv = (k, v).
Proof.
  induction d as [|[k' v'] d IH]; simpl.
  - intros [<-|[]]. by right; right.
  - destruct (key_eqb k' k) eqn:E; simpl.
    + intros [<-|Hin]; [right; left; by split | left; by right].
    + intros [<-|Hin]; [left; by left|]. destruct (IH Hin) as [?|?]; auto.
Qed.

Lemma dict_put_length {V : Type} (d : list (PyValue * V)) (k : PyValue) (v : V) :
  length (dict_put d k v) =
  match dict_get d k with
  | Some _ => length d
  | None => S (length d)
  end.
Proof.
  induction d as [|[k' v'] d IH]; simpl; [done|].
  destruct (key_eqb k' k); simpl; [done|]. rewrite IH. by destruct (dict_get d k).
Qed.

(** ** Manifests, continued *)

Lemma for_each_invariant {V : Type} (P : list (PyValue * V) -> Prop)
    (step : list (PyValue * V) -> PyValue -> Result (list (PyValue * V)))
    (items : list PyValue) (d : list (PyValue * V)) :
  (forall d x d', P d -> step d x = Ok d' -> P d') ->
  P d -> P (snd (for_each step items d)).
Proof.
  intros Hstep. revert d. induction items as [|x items IH]; intros d Hd; simpl; [done|].
  destruct (step d x) eqn:E; [|done]. apply IH. by apply (Hstep d x).
Qed.

Lemma parse_invariant {V : Type} (P : list (PyValue * V) -> Prop)
    (load_yaml : string -> Result PyValue)
    (step : list (PyValue * V) -> PyValue -> Result (list (PyValue * V))) (path : string) :
  (forall d x d', P d -> step d x = Ok d' -> P d') ->
  P [] -> P (snd (parse load_yaml step path)).
Proof.
  intros Hstep Hnil. unfold parse. destruct (load_yaml path) as [doc|]; [|done].
  destruct (iterate doc) as [items|]; [|done]. by apply for_each_invariant.
Qed.

Lemma params_step_ok (d d' : list (PyValue * ConfigItem)) (conf : PyValue) :
  params_step d conf = Ok d' ->
  exists name, getitem conf "name" = Ok name /\ hashable name = true /\
               d' = dict_put d name (config_item_of name conf).
Proof.
  unfold params_step. destruct (getitem conf "name") as [name|]; [|done].
  intros H. apply dict_setitem_ok in H as [Hh ->]. by exists name.
Qed.

Lemma params_step_keeps_ok (d d' : list (PyValue * ConfigItem)) (conf : PyValue) :
  params_ok d -> params_step d conf = Ok d' -> params_ok d'.
Proof.
  intros [Hwk Hnames] H. apply params_step_ok in H as (name & _ & Hh & ->). split.
  - by apply dict_put_well_keyed.
  - intros kv Hin. apply dict_put_entries in Hin as [Hin|[[-> Hk]| ->]]; simpl; auto.
    by apply key_eqb_refl.
Qed.

Lemma file_map_step_ok (fm fm' : list (PyValue * FileItem)) (data : PyValue) :
  file_map_step fm data = Ok fm' ->
  exists k0 k, getitem data "src_path" = Ok k0 /\ normalize_src_path k0 = Ok k /\
    fm' = dict_put fm k (FileItem_init k (get_value_from_dict data "target_path" k)
                                        (get_value_from_dict data "type" PyNone)).
Proof.
  unfold file_map_step. destruct (getitem data "src_path") as [k0|]; [|done].
  destruct (normalize_src_path k0) as [k|] eqn:E; [|done].
  intros H. apply dict_setitem_ok in H as [_ ->]. by exists k0, k.
Qed.

Lemma normalize_src_path_shape (k k' : PyValue) :
  normalize_src_path k = Ok k' ->
  exists s, k = PyStr s /\
    k' = PyStr (if dotted k then s
                else if starts_with_slash s then "." +:+ s else "./" +:+ s) /\
    dotted k' = true /\
    normalize_src_path k' = Ok k'.
Proof.
  destruct k as [| | |[|c s]| | |]; simpl; try done.
  destruct (Ascii.eqb c ".") eqn:E; intros [= <-].
  - exists (String c s). simpl. by rewrite E.
  - exists (String c s). unfold path_join. simpl.
    destruct (is_slash c); by repeat split.
Qed.

(** X8: the rewriting of a source path succeeds on the non-empty
    strings and on nothing else.  It leaves a path that begins with a
    dot as it is, puts a dot in front of a path that begins with a slash
    and [./] in front of any other; the result begins with a dot, and
    rewriting the result returns it unchanged. *)
Theorem normalize_src_path_idempotent (k : PyValue) :
  match k with
  | PyStr EmptyString => exists e, normalize_src_path k = Raise e
  | PyStr (String c s) =>
      let k' := PyStr (if Ascii.eqb c "."%char then String c s
                       else if Ascii.eqb c "/"%char then String "."%char (String c s)
                       else String "."%char (String "/"%char (String c s))) in
      normalize_src_path k = Ok k' /\
      (exists s', k' = PyStr (String "."%char s')) /\
      normalize_src_path k' = Ok k'
  | _ => exists e, normalize_src_path k = Raise e
  end.
Proof.
  destruct k as [| | |[|c s]| | |]; try (by eexists).
  cbv zeta. unfold normalize_src_path, path_join. simpl.
  destruct (Ascii.eqb c ".") eqn:Edot.
  - rewrite Edot. apply Ascii.eqb_eq in Edot as ->. repeat split. by eexists.
  - unfold is_slash, slash. destruct (Ascii.eqb c "/") eqn:Eslash; simpl.
    + repeat split. by eexists.
    + repeat split. by eexists.
Qed.

Lemma normalize_src_path_witness :
  normalize_src_path (PyStr "bin/obproxy") = Ok (PyStr "./bin/obproxy") /\
  (exists s', PyStr "./bin/obproxy" = PyStr (String "."%char s')) /\
  normalize_src_path (PyStr "./bin/obproxy") = Ok (PyStr "./bin/obproxy").
Proof. exact (normalize_src_path_idempotent (PyStr "bin/obproxy")). Defined.

Lemma normalize_dotted (k0 k : PyValue) :
  normalize_src_path k0 = Ok k -> dotted k = true /\ hashable k = true.
Proof.
  intros H. destruct (normalize_src_path_shape _ _ H) as (s & _ & -> & Hd & _).
  by split.
Qed.

Lemma dotted_key_eqb (k k' : PyValue) :
  dotted k = true -> key_eqb k k' = true -> k = k'.
Proof.
  destruct k as [| | |s| | |]; try done. intros _.
  destruct k'; simpl; try done. by intros ->%String.eqb_eq.
Qed.

Lemma file_map_step_keeps_ok (fm fm' : list (PyValue * FileItem)) (data : PyValue) :
  file_map_ok fm -> file_map_step fm data = Ok fm' -> file_map_ok fm'.
Proof.
  intros [Hwk Hitems] H. apply file_map_step_ok in H as (k0 & k & _ & Hk & ->).
  destruct (normalize_dotted _ _ Hk) as [Hd Hh]. split.
  - by apply dict_put_well_keyed.
  - assert (truthy (fi_type (FileItem_init k (get_value_from_dict data "target_path" k)
                                 (get_value_from_dict data "type" PyNone))) = true) as Ht.
    { simpl. by destruct (truthy (get_value_from_dict data "type" PyNone)) eqn:E. }
    intros kv Hin. apply dict_put_entries in Hin as [Hin|[[Hv Hkey]| ->]]; auto.
    destruct kv as [k1 v1]. simpl in *. subst v1.
    assert (dotted k1 = true) as Hd1.
    { rewrite key_eqb_sym in Hkey. rewrite <- (dotted_key_eqb _ _ Hd Hkey). done. }
    rewrite (dotted_key_eqb _ _ Hd1 Hkey). by repeat split.
Qed.

Lemma params_fresh (load_yaml : string -> Result PyValue) (self : ParamPlugin) :
  _src_data self = None ->
  params load_yaml self =
  (Ok (snd (parse load_yaml params_step (def_param_yaml_path self))),
   {| param_base := param_base self; def_param_yaml_path := def_param_yaml_path self;
      _src_data := Some (snd (parse load_yaml params_step (def_param_yaml_path self))) |}).
Proof.
  intros H. unfold params. rewrite H.
  by destruct (parse load_yaml params_step (def_param_yaml_path self)).
Qed.

Lemma file_map_fresh (load_yaml : string -> Result PyValue) (self : InstallPlugin) :
  _file_map self = None ->
  file_map load_yaml self =
  (Ok (snd (parse load_yaml file_map_step (file_map_path self))),
   {| install_base := install_base self; file_map_path := file_map_path self;
      _file_map := Some (snd (parse load_yaml file_map_step (file_map_path self))) |}).
Proof.
  intros H. unfold file_map. rewrite H.
  by destruct (parse load_yaml file_map_step (file_map_path self)).
Qed.

Lemma parse_params_ok (load_yaml : string -> Result PyValue) (path : string) :
  params_ok (snd (parse load_yaml params_step path)).
Proof.
  apply (parse_invariant params_ok).
  - intros d x d'. apply params_step_keeps_ok.
  - split; [done | by intros kv []].
Qed.

Lemma parse_file_map_ok (load_yaml : string -> Result PyValue) (path : string) :
  file_map_ok (snd (parse load_yaml file_map_step path)).
Proof.
  apply (parse_invariant file_map_ok).
  - intros d x d'. apply file_map_step_keeps_ok.
  - split; [done | by intros kv []].
Qed.

(** The loop over the names of a dictionary finds every name. *)
Lemma flagged_loop_eq (flag : ConfigItem -> PyValue) (d l : list (PyValue * ConfigItem))
    (items : list PyValue) :
  well_keyed d ->
  (forall kv, In kv l -> In kv d) ->
  flagged_loop flag d (map fst l) items =
  Ok (items ++ map fst (List.filter (fun kv => truthy (flag (snd kv))) l)).
Proof.
  intros Hd. revert items. induction l as [|[k c] l IH]; intros items Hl; simpl.
  - by rewrite app_nil_r.
  - rewrite (dict_get_own d k c Hd) by (apply Hl; by left).
    rewrite IH by (intros kv Hin; apply Hl; by right).
    destruct (truthy (flag c)); simpl; [by rewrite <- app_assoc | done].
Qed.

(** X9: the items that need a restart, and those that need a redeploy,
    are the names of the manifest's dictionary, in its order, whose flag
    is set; the two queries parse the manifest if it is not parsed yet,
    raise nothing, and leave the parsed dictionary cached. *)
Theorem restart_and_redeploy_items (load_yaml : string -> Result PyValue) (self : ParamPlugin) :
  _src_data self = None ->
  exists d self',
    params load_yaml self = (Ok d, self') /\
    _src_data self' = Some d /\
    get_need_restart_items load_yaml self =
      (Ok (map fst (List.filter (fun kv => truthy (ci_need_restart (snd kv))) d)), self') /\
    get_need_redeploy_items load_yaml self =
      (Ok (map fst (List.filter (fun kv => truthy (ci_need_redeploy (snd kv))) d)), self').
Proof.
  intros Hnone. eexists _, _. split; [by apply params_fresh|]. split; [done|].
  unfold get_need_restart_items, get_need_redeploy_items.
  rewrite (params_fresh _ _ Hnone).
  destruct (parse_params_ok load_yaml (def_param_yaml_path self)) as [Hwk _].
  by rewrite !flagged_loop_eq.
Qed.

Lemma restart_and_redeploy_witness :
  exists d self',
    params (Sample.yaml_is Sample.parameters_second_nameless) Sample.param_plugin
      = (Ok d, self') /\
    _src_data self' = Some d /\
    get_need_restart_items (Sample.yaml_is Sample.parameters_second_nameless)
      Sample.param_plugin =
      (Ok (map fst (List.filter (fun kv => truthy (ci_need_restart (snd kv))) d)), self') /\
    get_need_redeploy_items (Sample.yaml_is Sample.parameters_second_nameless)
      Sample.param_plugin =
      (Ok (map fst (List.filter (fun kv => truthy (ci_need_redeploy (snd kv))) d)), self').
Proof.
  apply (restart_and_redeploy_items (Sample.yaml_is Sample.parameters_second_nameless)
           Sample.param_plugin).
  reflexivity.
Defined.

(** The loop of [get_params_default], by what can be looked up in its
    result. *)
Lemma defaults_loop_lookup (d l1 l2 : list (PyValue * ConfigItem))
    (temp : list (PyValue * PyValue)) :
  params_ok d ->
  d = l1 ++ l2 ->
  (forall k, dict_get temp k = option_map ci_default (dict_get l1 k)) ->
  length temp = length l1 ->
  exists temp',
    defaults_loop d (map fst l2) temp = Ok temp' /\
    (forall k, dict_get temp' k = option_map ci_default (dict_get d k)) /\
    length temp' = length d.
Proof.
  intros [Hwk Hnames]. revert l1 temp. induction l2 as [|[k0 c0] l2 IH];
    intros l1 temp Hd Htemp Hlen; simpl.
  - exists temp. rewrite app_nil_r in Hd. subst l1. by repeat split.
  - assert (In (k0, c0) d) as Hin.
    { rewrite Hd. apply in_or_app. right. by left. }
    rewrite (dict_get_own d k0 c0 Hwk Hin).
    pose proof (Hnames _ Hin) as Hname. simpl in Hname.
    assert (hashable (ci_name c0) = true) as Hh.
    { rewrite key_eqb_sym in Hname. by apply key_eqb_code in Hname as [_ ?]. }
    unfold dict_setitem. rewrite Hh.
    assert (dict_get l1 k0 = None) as Hfresh.
    { apply dict_get_none. intros kv Hkv.
      clear -Hwk Hd Hkv. subst d. induction l1 as [|[k1 c1] l1 IHl]; [done|].
      simpl in Hwk. destruct Hwk as (_ & Hfresh & Hwk).
      destruct Hkv as [<-|Hkv]; simpl.
      - apply (Hfresh (k0, c0)). apply in_or_app. right. by left.
      - by apply IHl. }
    apply (IH (l1 ++ [(k0, c0)])).
    + by rewrite <- app_assoc.
    + intros k. rewrite dict_get_app. simpl.
      destruct (key_eqb (ci_name c0) k) eqn:E.
      * rewrite (dict_get_put_eqb _ _ _ _ E).
        pose proof (key_eqb_trans _ _ _ Hname E) as Hk0.
        assert (dict_get l1 k = None) as ->.
        { apply dict_get_none. intros kv Hkv.
          pose proof (proj1 (dict_get_none l1 k0) Hfresh kv Hkv) as Hne.
          destruct (key_eqb (fst kv) k) eqn:E2; [|done].
          rewrite key_eqb_sym in Hk0. by rewrite (key_eqb_trans _ _ _ E2 Hk0) in Hne. }
        by rewrite Hk0.
      * rewrite (dict_get_put_ne _ _ _ _ E), Htemp.
        destruct (dict_get l1 k); [done|].
        destruct (key_eqb k0 k) eqn:E2; [|done].
        rewrite key_eqb_sym in Hname. by rewrite (key_eqb_trans _ _ _ Hname E2) in E.
    + rewrite dict_put_length, length_app. simpl.
      assert (dict_get temp (ci_name c0) = None) as ->; [|lia].
      rewrite Htemp.
      assert (dict_get l1 (ci_name c0) = None) as ->; [|done].
      apply dict_get_none. intros kv Hkv.
      pose proof (proj1 (dict_get_none l1 k0) Hfresh kv Hkv) as Hne.
      destruct (key_eqb (fst kv) (ci_name c0)) eqn:E2; [|done].
      rewrite key_eqb_sym in Hname. by rewrite (key_eqb_trans _ _ _ E2 Hname) in Hne.
Qed.

(** X10: [get_params_default] raises nothing and returns a dictionary
    with as many entries as the manifest's dictionary, in which every
    name of the manifest is found with its default value and no other
    key is found. *)
Theorem params_default_lookup (load_yaml : string -> Result PyValue) (self : ParamPlugin) :
  _src_data self = None ->
  exists d temp self',
    params load_yaml self = (Ok d, self') /\
    get_params_default load_yaml self = (Ok temp, self') /\
    (forall k, dict_get temp k = option_map ci_default (dict_get d k)) /\
    length temp = length d.
Proof.
  intros Hnone.
  destruct (defaults_loop_lookup
              (snd (parse load_yaml params_step (def_param_yaml_path self))) []
              (snd (parse load_yaml params_step (def_param_yaml_path self))) [])
    as (temp & Hloop & Hlookup & Hlen); try done.
  { apply parse_params_ok. }
  eexists _, temp, _. split; [by apply params_fresh|].
  unfold get_params_default. rewrite (params_fresh _ _ Hnone). by rewrite Hloop.
Qed.

Lemma params_default_witness :
  exists d temp self',
    params (Sample.yaml_is Sample.parameters_second_nameless) Sample.param_plugin
      = (Ok d, self') /\
    get_params_default (Sample.yaml_is Sample.parameters_second_nameless) Sample.param_plugin
      = (Ok temp, self') /\
    (forall k, dict_get temp k = option_map ci_default (dict_get d k)) /\
    length temp = length d.
Proof.
  apply (params_default_lookup (Sample.yaml_is Sample.parameters_second_nameless)
           Sample.param_plugin).
  reflexivity.
Defined.

Lemma file_list_loop_eq (fm l : list (PyValue * FileItem)) :
  well_keyed fm ->
  (forall kv, In kv l -> In kv fm) ->
  file_list_loop fm (map fst l) = Ok (map snd l).
Proof.
  intros Hfm. induction l as [|[k item] l IH]; intros Hl; simpl; [done|].
  rewrite (dict_get_own fm k item Hfm) by (apply Hl; by left).
  by rewrite IH by (intros kv Hin; apply Hl; by right).
Qed.

(** X11: [file_list] raises nothing and returns the items of the file
    map in its order; every item carries the key it is stored under as
    its source path, a string that begins with a dot, no two items have
    the same source path, and no item is without a type. *)
Theorem file_list_items (load_yaml : string -> Result PyValue) (self : InstallPlugin) :
  _file_map self = None ->
  exists fm self',
    file_map load_yaml self = (Ok fm, self') /\
    file_list load_yaml self = (Ok (map snd fm), self') /\
    map fi_src_path (map snd fm) = map fst fm /\
    NoDup (map fi_src_path (map snd fm)) /\
    Forall (fun item => dotted (fi_src_path item) = true /\ truthy (fi_type item) = true)
      (map snd fm).
Proof.
  intros Hnone.
  destruct (parse_file_map_ok load_yaml (file_map_path self)) as [Hwk Hitems].
  set (fm := snd (parse load_yaml file_map_step (file_map_path self))) in *.
  assert (map fi_src_path (map snd fm) = map fst fm) as Hkeys.
  { clear Hwk. induction fm as [|kv fm IH]; [done|]. simpl.
    rewrite IH by (intros x Hx; apply Hitems; by right).
    f_equal. apply Hitems. by left. }
  eexists fm, _. split; [by apply file_map_fresh|].
  unfold file_list. rewrite (file_map_fresh _ _ Hnone). fold fm.
  rewrite file_list_loop_eq by done. repeat split; [done| |].
  - rewrite Hkeys. clear Hkeys. induction fm as [|[k item] fm IH]; [constructor|].
    simpl in Hwk. destruct Hwk as (_ & Hfresh & Hwk). simpl. constructor.
    + intros Hin. apply list_elem_of_In, in_map_iff in Hin as (kv & Hk & Hin).
      pose proof (Hfresh _ Hin) as Hne. rewrite Hk in Hne.
      rewrite key_eqb_refl in Hne; [done|].
      destruct (Hitems (k, item) (or_introl eq_refl)) as (_ & Hd & _).
      simpl in Hd. clear -Hd. destruct k; simpl in *; done.
    + apply IH; [done|]. intros x Hx. apply Hitems. by right.
  - apply Forall_forall. intros item Hin.
    apply list_elem_of_In, in_map_iff in Hin as (kv & <- & Hin).
    destruct (Hitems kv Hin) as (-> & ? & ?). by split.
Qed.

Lemma file_list_witness :
  exists fm self',
    file_map (Sample.yaml_is Sample.files_second_pathless) Sample.install_plugin
      = (Ok fm, self') /\
    file_list (Sample.yaml_is Sample.files_second_pathless) Sample.install_plugin
      = (Ok (map snd fm), self') /\
    map fi_src_path (map snd fm) = map fst fm /\
    NoDup (map fi_src_path (map snd fm)) /\
    Forall (fun item => dotted (fi_src_path item) = true /\ truthy (fi_type item) = true)
      (map snd fm).
Proof.
  apply (file_list_items (Sample.yaml_is Sample.files_second_pathless)
           Sample.install_plugin).
  reflexivity.
Defined.

(** X12: a payload is parsed once.  After the first access the accessor
    returns the same dictionary and leaves the plugin as it is, whatever
    has become of the manifest file in the meantime. *)
Theorem payload_is_parsed_once (load_yaml load_yaml' : string -> Result PyValue) :
  (forall self : ParamPlugin,
     params load_yaml' (snd (params load_yaml self))
     = (fst (params load_yaml self), snd (params load_yaml self))) /\
  (forall self : InstallPlugin,
     file_map load_yaml' (snd (file_map load_yaml self))
     = (fst (file_map load_yaml self), snd (file_map load_yaml self))).
Proof.
  split; intros self.
  - unfold params at 2 3 4. destruct (_src_data self) as [d|] eqn:E.
    + simpl. unfold params. by rewrite E.
    + by destruct (parse load_yaml params_step (def_param_yaml_path self)).
  - unfold file_map at 2 3 4. destruct (_file_map self) as [d|] eqn:E.
    + simpl. unfold file_map. by rewrite E.
    + by destruct (parse load_yaml file_map_step (file_map_path self)).
Qed.

(** X13: a record of the parameter manifest whose name is hashable is
    stored under its name: it replaces the entry of an earlier record
    with the same name, in the place of that entry, and is added at the
    end otherwise; the entries of other names stay. *)
Theorem record_overwrites_its_name (d : list (PyValue * ConfigItem)) (conf name : PyValue) :
  getitem conf "name" = Ok name ->
  hashable name = true ->
  exists d',
    params_step d conf = Ok d' /\
    dict_get d' name = Some (config_item_of name conf) /\
    (forall k, key_eqb name k = false -> dict_get d' k = dict_get d k) /\
    map fst d' = (match dict_get d name with
                  | Some _ => map fst d
                  | None => map fst d ++ [name]
                  end).
Proof.
  intros Hname Hh. exists (dict_put d name (config_item_of name conf)).
  unfold params_step, dict_setitem. rewrite Hname, Hh. split; [done|].
  split; [by apply dict_get_put_eq|]. split.
  - intros k Hk. by apply dict_get_put_ne.
  - apply dict_put_keys.
Qed.

Lemma record_overwrites_witness :
  exists d',
    params_step [(PyStr "listen_port", Sample.listen_port)]
      (PyDict [(PyStr "name", PyStr "listen_port"); (PyStr "need_restart", PyBool true)])
      = Ok d' /\
    dict_get d' (PyStr "listen_port")
      = Some (config_item_of (PyStr "listen_port")
                (PyDict [(PyStr "name", PyStr "listen_port");
                         (PyStr "need_restart", PyBool true)])) /\
    (forall k, key_eqb (PyStr "listen_port") k = false ->
               dict_get d' k = dict_get [(PyStr "listen_port", Sample.listen_port)] k) /\
    map fst d' = (match dict_get [(PyStr "listen_port", Sample.listen_port)]
                          (PyStr "listen_port") with
                  | Some _ => map fst [(PyStr "listen_port", Sample.listen_port)]
                  | None => map fst [(PyStr "listen_port", Sample.listen_port)]
                            ++ [PyStr "listen_port"]
                  end).
Proof.
  apply (record_overwrites_its_name [(PyStr "listen_port", Sample.listen_port)]
           (PyDict [(PyStr "name", PyStr "listen_port"); (PyStr "need_restart", PyBool true)])
           (PyStr "listen_port")); reflexivity.
Defined.

(** ** Paths *)

Lemma list_ascii_of_string_app (a b : string) :
  list_ascii_of_string (a +:+ b) = list_ascii_of_string a ++ list_ascii_of_string b.
Proof. induction a as [|c a IH]; simpl; [done | by rewrite IH]. Qed.

Lemma take_while_app {A : Type} (f : A -> bool) (l1 l2 : list A) (x : A) :
  forallb f l1 = true -> f x = false -> take_while f (l1 ++ x :: l2) = l1.
Proof.
  intros H Hx. induction l1 as [|y l1 IH]; simpl in *; [by rewrite Hx|].
  apply andb_prop in H as [-> H]. by rewrite IH.
Qed.

Lemma drop_while_app {A : Type} (f : A -> bool) (l1 l2 : list A) (x : A) :
  forallb f l1 = true -> f x = false -> drop_while f (l1 ++ x :: l2) = x :: l2.
Proof.
  intros H Hx. induction l1 as [|y l1 IH]; simpl in *; [by rewrite Hx|].
  apply andb_prop in H as [-> H]. by rewrite IH.
Qed.

Lemma forallb_rev {A : Type} (f : A -> bool) (l : list A) :
  forallb f (List.rev l) = forallb f l.
Proof.
  induction l as [|x l IH]; simpl; [done|].
  rewrite forallb_app, IH. simpl. rewrite andb_true_r. apply andb_comm.
Qed.

(** [os.path.split] takes [parent/name] apart again. *)
Lemma path_split_join (h t : string) :
  plain_dir h = true -> no_slash t = true ->
  path_split (h +:+ "/" +:+ t) = (h, t).
Proof.
  unfold plain_dir, no_slash, path_split, ends_with_slash. intros Hh Ht.
  apply andb_prop in Hh as [Hne Hend].
  rewrite !list_ascii_of_string_app. simpl.
  rewrite rev_app_distr. simpl. rewrite <- app_assoc. simpl.
  assert (forallb (fun c => negb (is_slash c)) (List.rev (list_ascii_of_string t)) = true)
    as Hrt by (by rewrite forallb_rev).
  rewrite (take_while_app _ _ _ _ Hrt) by done.
  rewrite (drop_while_app _ _ _ _ Hrt) by done.
  rewrite rev_involutive, string_of_list_ascii_of_string.
  simpl. replace (is_slash slash) with true by done.
  destruct (List.rev (list_ascii_of_string h)) as [|c r] eqn:Hr.
  - apply (f_equal (@List.rev ascii)) in Hr. rewrite rev_involutive in Hr. simpl in Hr.
    apply (f_equal string_of_list_ascii) in Hr.
    rewrite string_of_list_ascii_of_string in Hr. subst h. done.
  - simpl. apply negb_true_iff in Hend. rewrite Hend.
    rewrite <- Hr, rev_involutive, string_of_list_ascii_of_string. done.
Qed.

(** ** Discovery *)

(** The loop of [get_plugins] on a cache that holds every path. *)
Lemma get_plugins_loop_cached (self : ComponentPluginLoader) (paths : list string)
    (l acc : list Plugin) :
  Forall2 (fun fp p => _plugins self !! fp = Some p) paths l ->
  get_plugins_loop self paths acc = (Ok (acc ++ l), self).
Proof.
  intros H. revert acc. induction H as [|fp p paths l Hfp _ IH]; intros acc; simpl.
  - by rewrite app_nil_r.
  - rewrite Hfp, IH. by rewrite <- app_assoc.
Qed.

(** The loop of [get_plugins] returns what the cache holds afterwards,
    and only adds to the cache. *)
Lemma get_plugins_loop_fills (self self' : ComponentPluginLoader) (paths : list string)
    (acc res : list Plugin) :
  get_plugins_loop self paths acc = (Ok res, self') ->
  (forall fp p, _plugins self !! fp = Some p -> _plugins self' !! fp = Some p) /\
  exists l, res = acc ++ l /\ Forall2 (fun fp p => _plugins self' !! fp = Some p) paths l.
Proof.
  revert self acc. induction paths as [|fp paths IH]; intros self acc; simpl.
  - intros [= <- <-]. split; [done|]. exists []. by rewrite app_nil_r.
  - destruct (_plugins self !! fp) as [p|] eqn:Hfp.
    + intros H. destruct (IH _ _ H) as (Hext & l & -> & Hl). split; [done|].
      exists (p :: l). split; [by rewrite <- app_assoc|]. constructor; auto.
    + destruct (construct _ _ _ _) as [p|]; [|done].
      intros H. destruct (IH _ _ H) as (Hext & l & -> & Hl). split.
      * intros fp' q Hq. apply Hext. simpl.
        rewrite lookup_insert_ne; [done|]. intros <-. congruence.
      * exists (p :: l). split; [by rewrite <- app_assoc|]. constructor; [|done].
        apply Hext. simpl. apply lookup_insert_eq.
Qed.

Lemma get_plugins_again glob (self self' : ComponentPluginLoader) (found : list Plugin) :
  get_plugins glob self = (Ok found, self') ->
  get_plugins glob self' = (Ok found, self').
Proof.
  intros Hget.
  destruct (get_plugins_frame _ _ _ _ Hget) as (_ & _ & _ & Hcls & Hpath).
  unfold get_plugins in *. rewrite Hcls, Hpath.
  destruct (get_plugins_loop_fills _ _ _ _ _ Hget) as (_ & l & -> & Hl).
  by apply get_plugins_loop_cached.
Qed.

Lemma get_best_plugin_again glob (self self' : ComponentPluginLoader) (found : list Plugin)
    (v : string) :
  get_plugins glob self = (Ok found, self') ->
  get_best_plugin glob self' v = get_best_plugin glob self v.
Proof.
  intros Hget. unfold get_best_plugin.
  by rewrite Hget, (get_plugins_again _ _ _ _ Hget).
Qed.

(** X14: discovery is cached.  A second [get_plugins] on the same
    directory listing returns the very plugins of the first and leaves
    the loader as it is, and so does a second [get_best_plugin], which
    gives the same plugin and the same notice; discovery only ever adds
    to the cache. *)
Theorem discovery_is_cached glob (self self' : ComponentPluginLoader) (found : list Plugin) :
  get_plugins glob self = (Ok found, self') ->
  get_plugins glob self' = (Ok found, self') /\
  (forall v, get_best_plugin glob self' v = get_best_plugin glob self v) /\
  (forall fp p, _plugins self !! fp = Some p -> _plugins self' !! fp = Some p).
Proof.
  intros Hget. split; [by apply (get_plugins_again _ self)|]. split.
  - intros v. by apply (get_best_plugin_again _ _ _ found).
  - by destruct (get_plugins_loop_fills _ _ _ _ _ Hget) as [Hext _].
Qed.

Lemma discovery_is_cached_witness :
  let glob := Sample.glob_of ["2.0.0"; "2.1.0"; "3.0.0"] in
  let self' := snd (get_plugins glob (Sample.loader None)) in
  get_plugins glob self'
    = (Ok [Sample.plugin "2.0.0"; Sample.plugin "2.1.0"; Sample.plugin "3.0.0"], self') /\
  (forall v, get_best_plugin glob self' v = get_best_plugin glob (Sample.loader None) v) /\
  (forall fp p, _plugins (Sample.loader None) !! fp = Some p -> _plugins self' !! fp = Some p).
Proof.
  apply (discovery_is_cached (Sample.glob_of ["2.0.0"; "2.1.0"; "3.0.0"])
           (Sample.loader None)).
  vm_compute. reflexivity.
Defined.

(** The loop of [get_plugins] on a cache that holds, for each of its
    paths, the plugin the loader would construct for it. *)
Lemma get_plugins_loop_fresh (self : ComponentPluginLoader) (paths : list string)
    (l acc : list Plugin) :
  (forall fp p, _plugins self !! fp = Some p -> plugin_at self fp = Ok p) ->
  Forall2 (fun fp p => plugin_at self fp = Ok p) paths l ->
  fst (get_plugins_loop self paths acc) = Ok (acc ++ l).
Proof.
  intros Hcache H. revert self l acc Hcache H.
  induction paths as [|fp paths IH]; intros self l acc Hcache H;
    inversion H as [|? p ? l' Hp Hl]; subst; cbn [get_plugins_loop]; cbv zeta.
  - simpl. by rewrite app_nil_r.
  - destruct (_plugins self !! fp) as [q|] eqn:Hfp.
    + apply Hcache in Hfp. rewrite Hp in Hfp. injection Hfp as <-.
      rewrite (IH self l' (acc ++ [p]) Hcache Hl). by rewrite <- app_assoc.
    + unfold plugin_at in Hp. rewrite Hp.
      rewrite (IH _ l' (acc ++ [p])); [by rewrite <- app_assoc| |done].
      intros fp' q. simpl. destruct (decide (fp = fp')) as [<-|Hne].
      * rewrite lookup_insert_eq. intros [= <-]. done.
      * rewrite lookup_insert_ne by done. apply Hcache.
Qed.

(** X15: a loader that has not discovered anything yet finds, for the
    version directories the file system lists under its path, one plugin
    per directory and in the order of the listing: the plugin's path is
    the directory, its version the directory name split at the dots, and
    its component name the loader's. *)
Theorem discovery_reads_directory_names glob (self : ComponentPluginLoader)
    (flag : string) (t : PluginTypeObj) (dirs : list string) :
  _plugins self = ∅ ->
  constructible (plguin_cls self) = true ->
  FLAG_FILE (plguin_cls self) = Some flag ->
  PLUGIN_TYPE (plguin_cls self) = Some t ->
  plain_dir (path self) = true ->
  no_slash flag = true ->
  Forall (fun d => no_slash d = true /\ d <> "") dirs ->
  glob (path self +:+ "/*/" +:+ flag)
    = map (fun d => (path self +:+ "/" +:+ d) +:+ "/" +:+ flag) dirs ->
  fst (get_plugins glob self) =
  Ok (map (fun d => {| component_name := loader_component_name self;
                       plugin_path := path self +:+ "/" +:+ d;
                       version := split "." d;
                       plugin_type := t;
                       plugin_cls := plguin_cls self |}) dirs).
Proof.
  intros Hempty Hc Hflag Ht Hpath Hnoslash Hdirs Hglob.
  unfold get_plugins. rewrite Hflag. simpl. rewrite Hglob.
  apply (get_plugins_loop_fresh self _ _ []).
  { intros fp p. by rewrite Hempty, lookup_empty. }
  clear Hglob. induction Hdirs as [|d dirs [Hd Hne] _ IH]; simpl; constructor; [|done].
  unfold plugin_at.
  assert (plain_dir (path self +:+ "/" +:+ d) = true) as Hdir.
  { unfold plain_dir, ends_with_slash. rewrite !list_ascii_of_string_app, !rev_app_distr.
    apply andb_true_intro. split.
    - apply negb_true_iff, bool_decide_eq_false_2. intros E.
      apply (f_equal list_ascii_of_string) in E.
      rewrite !list_ascii_of_string_app in E. simpl in E.
      by destruct (list_ascii_of_string (path self)).
    - unfold no_slash in Hd. rewrite <- forallb_rev in Hd.
      destruct (List.rev (list_ascii_of_string d)) as [|c r] eqn:Hr.
      + apply (f_equal (@List.rev ascii)) in Hr. rewrite rev_involutive in Hr.
        apply (f_equal string_of_list_ascii) in Hr.
        rewrite string_of_list_ascii_of_string in Hr. by subst d.
      + simpl in *. by apply andb_prop in Hd as [-> _]. }
  rewrite (path_split_join _ _ Hdir Hnoslash). cbn [fst snd].
  rewrite (path_split_join _ _ Hpath Hd). cbn [fst snd].
  unfold constructible in Hc. rewrite Ht, Hflag in Hc.
  apply andb_prop in Hc as [Hc1 Hc2]. apply andb_prop in Hc1 as [Hc0 _].
  apply negb_true_iff in Hc0, Hc2.
  unfold construct, Plugin_init. by rewrite Hc0, Ht, Hflag, Hc2.
Qed.

Lemma discovery_reads_names_witness :
  fst (get_plugins (Sample.glob_of ["2.0.0"; "3.10"]) (Sample.loader None)) =
  Ok (map (fun d => {| component_name := loader_component_name (Sample.loader None);
                       plugin_path := path (Sample.loader None) +:+ "/" +:+ d;
                       version := split "." d;
                       plugin_type := EnumMember PARAM;
                       plugin_cls := plguin_cls (Sample.loader None) |}) ["2.0.0"; "3.10"]).
Proof.
  apply (discovery_reads_directory_names (Sample.glob_of ["2.0.0"; "3.10"])
           (Sample.loader None) "parameter.yaml" (EnumMember PARAM) ["2.0.0"; "3.10"]);
    try reflexivity.
  repeat constructor; done.
Defined.

(** ** The plugin manager, continued *)

(** X16: the start kind is in the manager's table, but the module
    defines no class for it: asking for a start plugin of a component
    that has no loader yet raises [ImportError] with the class name and
    leaves the manager as it was. *)
Theorem start_kind_has_no_class (glob : string -> list string) (self : PluginManager)
    (loaders : gmap string ComponentPluginLoader) (component_name version : string) :
  component_plugin_loaders self !! START = Some loaders ->
  loaders !! component_name = None ->
  Manager_get_best_plugin glob self (EnumMember START) component_name version
  = (Raise {| exc_class := ImportError; exc_text := "StartPlugin" |}, self, []).
Proof. intros Ht Hc. unfold Manager_get_best_plugin. simpl. by rewrite Ht, Hc. Qed.

Lemma start_kind_witness :
  Manager_get_best_plugin (Sample.glob_of ["3.1.0"])
    (PluginManager_init "/obd/plugins" None) (EnumMember START) "obproxy" "3.1.0"
  = (Raise {| exc_class := ImportError; exc_text := "StartPlugin" |},
     PluginManager_init "/obd/plugins" None, []).
Proof.
  apply (start_kind_has_no_class (Sample.glob_of ["3.1.0"])
           (PluginManager_init "/obd/plugins" None) ∅ "obproxy" "3.1.0");
    vm_compute; reflexivity.
Defined.

Lemma get_best_plugin_ok glob (self self' : ComponentPluginLoader) (v : string)
    (r : option Plugin) (ev : list Event) :
  get_best_plugin glob self v = (Ok r, self', ev) ->
  exists found, get_plugins glob self = (Ok found, self').
Proof.
  unfold get_best_plugin. destruct (get_plugins glob self) as [[found|e] s]; [|done].
  destruct (select s (split "." v) found). intros [= _ <- _]. by exists found.
Qed.

(** X17: the manager keeps the loader it resolved with.  After a
    request that returned, the same request returns the same plugin with
    the same notice and leaves the manager, loaders and caches, exactly
    as the first request left it. *)
Theorem manager_resolution_is_cached (glob : string -> list string) (self self' : PluginManager)
    (plugin_type : PluginTypeObj) (component_name version : string)
    (r : option Plugin) (ev : list Event) :
  Manager_get_best_plugin glob self plugin_type component_name version = (Ok r, self', ev) ->
  Manager_get_best_plugin glob self' plugin_type component_name version = (Ok r, self', ev).
Proof.
  unfold Manager_get_best_plugin.
  destruct plugin_type as [t|name value]; [|by intros [= <- <- <-]]. simpl.
  destruct (component_plugin_loaders self !! t) as [loaders|] eqn:Ht;
    [|intros [= <- <- <-]; by rewrite Ht].
  destruct (match loaders !! component_name with
            | Some loader => Ok loader
            | None => _
            end) as [loader|e]; [|done].
  destruct (get_best_plugin glob loader version) as [[r0 loader'] ev0] eqn:Hbest.
  intros [= -> <- ->]. simpl.
  rewrite lookup_insert_eq, lookup_insert_eq.
  destruct (get_best_plugin_ok _ _ _ _ _ _ Hbest) as [found Hget].
  rewrite (get_best_plugin_again _ _ _ _ version Hget), Hbest.
  by rewrite !insert_insert_eq.
Qed.

Lemma manager_resolution_witness :
  Manager_get_best_plugin (Sample.glob_of ["2.0.0"])
    (snd (fst (Manager_get_best_plugin (Sample.glob_of ["2.0.0"])
                 (PluginManager_init "/obd/plugins" None) (EnumMember PARAM)
                 "obproxy" "2.5.0")))
    (EnumMember PARAM) "obproxy" "2.5.0"
  = (Ok (Some (Sample.plugin "2.0.0")),
     snd (fst (Manager_get_best_plugin (Sample.glob_of ["2.0.0"])
                 (PluginManager_init "/obd/plugins" None) (EnumMember PARAM)
                 "obproxy" "2.5.0")),
     []).
Proof.
  apply (manager_resolution_is_cached (Sample.glob_of ["2.0.0"])
           (PluginManager_init "/obd/plugins" None)).
  vm_compute. reflexivity.
Defined.

Lemma path_join_plain (a b : string) :
  plain_dir a = true -> no_slash b = true -> path_join a b = a +:+ "/" +:+ b.
Proof.
  unfold plain_dir, path_join. intros Ha Hb.
  apply andb_prop in Ha as [Hne Hend]. apply negb_true_iff in Hne, Hend.
  rewrite Hne, Hend.
  assert (starts_with_slash b = false) as ->; [|done].
  destruct b as [|c b]; [done|]. unfold no_slash in Hb. simpl in *.
  apply andb_prop in Hb as [Hc _]. by apply negb_true_iff in Hc.
Qed.

(** X18: for a component it has no loader for, the manager creates one
    on the directory of that name under its own path, named after the
    component and with the manager's stdio, resolves with it and keeps
    it; here the component name is a plain directory name and the kind
    one of the two that have a class. *)
Theorem manager_creates_component_loader (glob : string -> list string) (self : PluginManager)
    (t : PluginType) (cls : PluginClass) (loaders : gmap string ComponentPluginLoader)
    (component_name version : string) :
  component_plugin_loaders self !! t = Some loaders ->
  loaders !! component_name = None ->
  module_class (type_value (EnumMember t)) = Some cls ->
  plain_dir (manager_path self) = true ->
  no_slash component_name = true ->
  let fresh :=
    {| loader_PLUGIN_TYPE := EnumMember t; plguin_cls := cls;
       loader_stdio := manager_stdio self;
       path := manager_path self +:+ "/" +:+ component_name;
       loader_component_name := component_name;
       _plugins := ∅ |} in
  exists self',
    Manager_get_best_plugin glob self (EnumMember t) component_name version
    = (fst (fst (get_best_plugin glob fresh version)), self',
       snd (get_best_plugin glob fresh version)) /\
    component_plugin_loaders self' !! t
    = Some (<[component_name := snd (fst (get_best_plugin glob fresh version))]> loaders).
Proof.
  intros Ht Hc Hcls Hpath Hname fresh.
  unfold Manager_get_best_plugin. simpl. rewrite Ht, Hc.
  unfold ComponentPluginLoader_init. rewrite Hcls.
  rewrite (path_join_plain _ _ Hpath Hname), (path_split_join _ _ Hpath Hname).
  cbn [snd]. fold fresh.
  destruct (get_best_plugin glob fresh version) as [[r loader'] ev].
  eexists. split; [reflexivity|]. simpl. apply lookup_insert_eq.
Qed.

Lemma manager_creates_loader_witness :
  let fresh :=
    {| loader_PLUGIN_TYPE := EnumMember PARAM; plguin_cls := ParamPlugin_cls;
       loader_stdio := manager_stdio (PluginManager_init "/obd/plugins" None);
       path := manager_path (PluginManager_init "/obd/plugins" None) +:+ "/" +:+ "obproxy";
       loader_component_name := "obproxy";
       _plugins := ∅ |} in
  exists self',
    Manager_get_best_plugin (Sample.glob_of ["2.0.0"]) (PluginManager_init "/obd/plugins" None)
      (EnumMember PARAM) "obproxy" "2.5.0"
    = (fst (fst (get_best_plugin (Sample.glob_of ["2.0.0"]) fresh "2.5.0")), self',
       snd (get_best_plugin (Sample.glob_of ["2.0.0"]) fresh "2.5.0")) /\
    component_plugin_loaders self' !! PARAM
    = Some (<["obproxy" := snd (fst (get_best_plugin (Sample.glob_of ["2.0.0"]) fresh
                                       "2.5.0"))]> ∅).
Proof.
  apply (manager_creates_component_loader (Sample.glob_of ["2.0.0"])
           (PluginManager_init "/obd/plugins" None) PARAM ParamPlugin_cls ∅
           "obproxy" "2.5.0"); vm_compute; reflexivity.
Defined.

(** ** The script loader *)

Example script_type_start_check :
  script_type ascii_case "start_check" = ScriptType "PY_SCRIPT_START_CHECK" "PyScriptStartCheckPlugin".
Proof. reflexivity. Qed.

(** X19: the script loader refuses an empty script name, and the manager
    passes the refusal on: [NotImplementedError] is raised, no class is
    created and no loader is stored, but the manager has by then made
    the (empty) table of loaders for that name. *)
Theorem empty_script_name_is_refused (glob : string -> list string)
    (case : CaseMapping)
    (create : string -> PluginTypeObj -> option PluginClass * option PyExc)
    (self : PluginManager) (registry : gmap string PluginClass)
    (component_name version : string) :
  py_script_plugin_loaders self !! "" = None ->
  get_best_py_script_plugin glob case create self registry "" component_name version
  = (Raise not_implemented,
     set_py_script_plugin_loaders self (<["" := ∅]> (py_script_plugin_loaders self)),
     registry, []).
Proof.
  intros H. unfold get_best_py_script_plugin. rewrite H.
  rewrite lookup_insert_eq. simpl. by rewrite lookup_empty.
Qed.

Lemma empty_script_name_witness :
  get_best_py_script_plugin (Sample.glob_of []) ascii_case Sample.create_from_template
    (PluginManager_init "/obd/plugins" None) ∅ "" "obproxy" "3.1.0"
  = (Raise not_implemented,
     set_py_script_plugin_loaders (PluginManager_init "/obd/plugins" None)
       (<["" := ∅]> (py_script_plugin_loaders (PluginManager_init "/obd/plugins" None))),
     ∅, []).
Proof.
  apply (empty_script_name_is_refused (Sample.glob_of []) ascii_case
           Sample.create_from_template
           (PluginManager_init "/obd/plugins" None) ∅ "obproxy" "3.1.0").
  reflexivity.
Defined.

Lemma script_loader_reuses (case : CaseMapping)
    (create : string -> PluginTypeObj -> option PluginClass * option PyExc)
    (registry : gmap string PluginClass) (home_path script_name : string)
    (stdio : option StdioObj) (cls : PluginClass) :
  script_name <> "" ->
  module_getattr registry (type_value (script_type case script_name)) = Some cls ->
  PyScriptPluginLoader_init case create registry home_path script_name stdio
  = (Ok {| loader_PLUGIN_TYPE := script_type case script_name; plguin_cls := cls;
           loader_stdio := stdio; path := home_path;
           loader_component_name := snd (path_split home_path); _plugins := ∅ |},
     registry).
Proof.
  intros Hne Hcls. unfold PyScriptPluginLoader_init.
  rewrite bool_decide_eq_false_2 by done. cbv zeta. rewrite Hcls.
  unfold ComponentPluginLoader_init. by rewrite Hcls.
Qed.

(** X20: script classes are kept by the capitalised form of the script
    name, as Python's [str.capitalize] gives it, not by the name.  Once
    a class exists for a name, the loader
    of any other name with the same capitalised form (another case,
    another number of underscores) takes that class as it is, with the
    first name's flag file, and creates none of its own. *)
Theorem same_capitals_share_class (case : CaseMapping)
    (create : string -> PluginTypeObj -> option PluginClass * option PyExc)
    (registry : gmap string PluginClass) (home1 home2 s1 s2 : string)
    (stdio1 stdio2 : option StdioObj) (cls : PluginClass) :
  s1 <> "" -> s2 <> "" ->
  type_value (script_type case s1) = type_value (script_type case s2) ->
  module_getattr registry (type_value (script_type case s1)) = None ->
  create s1 (script_type case s1) = (Some cls, None) ->
  let registry1 := <[type_value (script_type case s1) := cls]> registry in
  PyScriptPluginLoader_init case create registry home1 s1 stdio1
  = (Ok {| loader_PLUGIN_TYPE := script_type case s1; plguin_cls := cls;
           loader_stdio := stdio1; path := home1;
           loader_component_name := snd (path_split home1); _plugins := ∅ |},
     registry1) /\
  PyScriptPluginLoader_init case create registry1 home2 s2 stdio2
  = (Ok {| loader_PLUGIN_TYPE := script_type case s2; plguin_cls := cls;
           loader_stdio := stdio2; path := home2;
           loader_component_name := snd (path_split home2); _plugins := ∅ |},
     registry1).
Proof.
  intros Hs1 Hs2 Hsame Hnew Hcreate registry1.
  assert (module_getattr registry1 (type_value (script_type case s1)) = Some cls) as Hreg.
  { unfold module_getattr in *. destruct (module_class _); [done|].
    apply lookup_insert_eq. }
  split.
  - unfold PyScriptPluginLoader_init. rewrite bool_decide_eq_false_2 by done.
    cbv zeta. rewrite Hnew, Hcreate. fold registry1.
    unfold ComponentPluginLoader_init. by rewrite Hreg.
  - apply script_loader_reuses; [done|]. by rewrite <- Hsame.
Qed.

Lemma same_capitals_witness :
  let registry1 :=
    <[type_value (script_type ascii_case "start_check") := script_cls "start_check"
                                                    (script_type ascii_case "start_check")]>
      (∅ : gmap string PluginClass) in
  PyScriptPluginLoader_init ascii_case Sample.create_from_template ∅ "/obd/plugins/obproxy"
    "start_check" None
  = (Ok {| loader_PLUGIN_TYPE := script_type ascii_case "start_check";
           plguin_cls := script_cls "start_check" (script_type ascii_case "start_check");
           loader_stdio := None; path := "/obd/plugins/obproxy";
           loader_component_name := snd (path_split "/obd/plugins/obproxy");
           _plugins := ∅ |},
     registry1) /\
  PyScriptPluginLoader_init ascii_case Sample.create_from_template registry1 "/obd/plugins/obproxy"
    "START__check" None
  = (Ok {| loader_PLUGIN_TYPE := script_type ascii_case "START__check";
           plguin_cls := script_cls "start_check" (script_type ascii_case "start_check");
           loader_stdio := None; path := "/obd/plugins/obproxy";
           loader_component_name := snd (path_split "/obd/plugins/obproxy");
           _plugins := ∅ |},
     registry1).
Proof.
  apply (same_capitals_share_class ascii_case Sample.create_from_template ∅
           "/obd/plugins/obproxy" "/obd/plugins/obproxy" "start_check" "START__check"
           None None (script_cls "start_check" (script_type ascii_case "start_check")));
    done.
Defined.

(** X21: the manager keeps the script loader it resolved with.  After a
    request for a script plugin that returned, the same request returns
    the same plugin with the same notice, creates no class and leaves
    the manager as the first request left it. *)
Theorem script_resolution_is_cached (glob : string -> list string)
    (case : CaseMapping)
    (create : string -> PluginTypeObj -> option PluginClass * option PyExc)
    (self self' : PluginManager) (registry registry' : gmap string PluginClass)
    (script_name component_name version : string) (r : option Plugin) (ev : list Event) :
  get_best_py_script_plugin glob case create self registry script_name component_name version
    = (Ok r, self', registry', ev) ->
  get_best_py_script_plugin glob case create self' registry' script_name component_name version
    = (Ok r, self', registry', ev).
Proof.
  unfold get_best_py_script_plugin.
  set (table := match py_script_plugin_loaders self !! script_name with
                | Some _ => py_script_plugin_loaders self
                | None => <[script_name := ∅]> (py_script_plugin_loaders self)
                end).
  set (loaders := default ∅ (table !! script_name)).
  destruct (match loaders !! component_name with
            | Some loader => (Ok loader, registry)
            | None => _
            end) as [[loader|e] reg]; [|done].
  destruct (get_best_plugin glob loader version) as [[r0 loader'] ev0] eqn:Hbest.
  intros [= -> <- <- ->]. simpl.
  rewrite !lookup_insert_eq. simpl. rewrite !lookup_insert_eq.
  destruct (get_best_plugin_ok _ _ _ _ _ _ Hbest) as [found Hget].
  rewrite (get_best_plugin_again _ _ _ _ version Hget), Hbest.
  by rewrite !insert_insert_eq.
Qed.

Lemma script_resolution_witness :
  let first :=
    get_best_py_script_plugin
      (fun pattern => if String.eqb pattern "/obd/plugins/obproxy/*/init.py"
                      then ["/obd/plugins/obproxy/3.1.0/init.py"] else [])
      ascii_case Sample.create_from_template (PluginManager_init "/obd/plugins" None) ∅
      "init" "obproxy" "3.1.0" in
  get_best_py_script_plugin
    (fun pattern => if String.eqb pattern "/obd/plugins/obproxy/*/init.py"
                    then ["/obd/plugins/obproxy/3.1.0/init.py"] else [])
    ascii_case Sample.create_from_template (snd (fst (fst first))) (snd (fst first))
    "init" "obproxy" "3.1.0"
  = (Ok (Some {| component_name := "obproxy"; plugin_path := "/obd/plugins/obproxy/3.1.0";
                 version := ["3"; "1"; "0"]; plugin_type := script_type ascii_case "init";
                 plugin_cls := script_cls "init" (script_type ascii_case "init") |}),
     snd (fst (fst first)), snd (fst first), []).
Proof.
  apply (script_resolution_is_cached _ ascii_case Sample.create_from_template
           (PluginManager_init "/obd/plugins" None) _ ∅).
  vm_compute. reflexivity.
Defined.

(** ** Where the version order is the numeric one *)

Lemma int_of_digits_acc (s : string) :
  digits s = true ->
  exists v, (0 <= v < 10 ^ Z.of_nat (String.length s))%Z /\
            forall acc, int_of_digits acc s = Some (acc * 10 ^ Z.of_nat (String.length s) + v)%Z.
Proof.
  induction s as [|c s IH]; simpl.
  - intros _. exists 0%Z. split; [lia|]. intros acc. f_equal. lia.
  - destruct (digit_of c) as [d|] eqn:Hd; [|done]. intros Hs.
    destruct (IH Hs) as (v & Hv & Hacc).
    assert (0 <= d <= 9)%Z as Hd9.
    { unfold digit_of in Hd.
      destruct ((48 <=? N_of_ascii c)%N && (N_of_ascii c <=? 57)%N)%bool eqn:E; [|done].
      apply andb_prop in E as [E1 E2]. apply N.leb_le in E1, E2.
      injection Hd as <-. lia. }
    exists (d * 10 ^ Z.of_nat (String.length s) + v)%Z.
    rewrite Nat2Z.inj_succ, Z.pow_succ_r by lia. split; [nia|].
    intros acc. rewrite Hacc. f_equal. lia.
Qed.

Lemma int_of_token_cons (c : ascii) (s : string) (d : Z) :
  digit_of c = Some d -> digits s = true ->
  int_of_token (String c s) = (d * 10 ^ Z.of_nat (String.length s) + int_of_token s)%Z /\
  (0 <= int_of_token s < 10 ^ Z.of_nat (String.length s))%Z.
Proof.
  intros Hd Hs. destruct (int_of_digits_acc s Hs) as (v & Hv & Hacc).
  unfold int_of_token. simpl. rewrite Hd, !Hacc. split; [lia|]. lia.
Qed.

Lemma digit_of_code (c : ascii) (d : Z) :
  digit_of c = Some d -> d = (Z.of_N (N_of_ascii c) - 48)%Z /\ (0 <= d <= 9)%Z.
Proof.
  unfold digit_of.
  destruct ((48 <=? N_of_ascii c)%N && (N_of_ascii c <=? 57)%N)%bool eqn:E; [|done].
  apply andb_prop in E as [E1 E2]. apply N.leb_le in E1, E2.
  intros [= <-]. split; lia.
Qed.

(** Two numbers written with the same number of digits compare as
    strings the way they compare as numbers. *)
Lemma digit_tokens_compare (s t : string) :
  digits s = true -> digits t = true -> String.length s = String.length t ->
  String.eqb s t = (int_of_token s =? int_of_token t)%Z /\
  str_ltb s t = (int_of_token s <? int_of_token t)%Z.
Proof.
  revert t. induction s as [|c s IH]; intros [|d t]; simpl; try done.
  destruct (digit_of c) as [dc|] eqn:Hc; [|done].
  destruct (digit_of d) as [dd|] eqn:Hd; [|done].
  intros Hs Ht [= Hlen].
  destruct (int_of_token_cons c s dc Hc Hs) as [-> Hvs].
  destruct (int_of_token_cons d t dd Hd Ht) as [-> Hvt].
  destruct (IH t Hs Ht Hlen) as [IHeq IHlt].
  destruct (digit_of_code _ _ Hc) as [Hdc Hc9], (digit_of_code _ _ Hd) as [Hdd Hd9].
  rewrite Hlen in *.
  set (P := (10 ^ Z.of_nat (String.length t))%Z) in *.
  unfold str_ltb. simpl. fold (str_ltb s t).
  destruct (Ascii.eqb c d) eqn:Ecd.
  - apply Ascii.eqb_eq in Ecd. subst d. assert (dd = dc) as -> by lia.
    rewrite IHeq, IHlt. split.
    + destruct (Z.eqb_spec (int_of_token s) (int_of_token t)),
        (Z.eqb_spec (dc * P + int_of_token s) (dc * P + int_of_token t)); try done; lia.
    + destruct (Z.ltb_spec (int_of_token s) (int_of_token t)),
        (Z.ltb_spec (dc * P + int_of_token s) (dc * P + int_of_token t)); try done; lia.
  - assert (dc <> dd) as Hne.
    { intros E. apply Ascii.eqb_neq in Ecd. apply Ecd.
      rewrite <- (ascii_N_embedding c), <- (ascii_N_embedding d). f_equal. lia. }
    unfold chr_ltb. split.
    + destruct (Z.eqb_spec (dc * P + int_of_token s) (dd * P + int_of_token t)); [|done].
      nia.
    + destruct (N.ltb_spec (N_of_ascii c) (N_of_ascii d)),
        (Z.ltb_spec (dc * P + int_of_token s) (dd * P + int_of_token t)); try done; nia.
Qed.

Lemma list_ltb_same_widths (a b : list string) :
  same_widths a b = true -> list_ltb a b = spec_int_ltb a b.
Proof.
  unfold list_ltb, spec_int_ltb. revert b.
  induction a as [|x a IH]; intros [|y b]; simpl; try done.
  intros H. apply andb_prop in H as [H Hrest]. apply andb_prop in H as [H Hlen].
  apply andb_prop in H as [Hx Hy]. apply Nat.eqb_eq in Hlen.
  destruct (digit_tokens_compare x y Hx Hy Hlen) as [-> ->].
  by rewrite (IH b Hrest).
Qed.

(** X22: between two versions whose tokens are, position by position,
    numbers of the same number of digits, the resolver's comparison is
    the numeric one: such versions are below each other exactly when
    they are so token by token as integers. *)
Theorem same_width_versions_compare_numerically (a b : list string) :
  same_widths a b = true ->
  list_ltb a b = spec_int_ltb a b.
Proof. apply list_ltb_same_widths. Qed.

Lemma same_width_versions_witness :
  list_ltb (split "." "3.09.1") (split "." "3.10") =
  spec_int_ltb (split "." "3.09.1") (split "." "3.10").
Proof.
  apply (same_width_versions_compare_numerically (split "." "3.09.1") (split "." "3.10")).
  reflexivity.
Defined.

Lemma same_widths_sym (a b : list string) : same_widths a b = same_widths b a.
Proof.
  revert b. induction a as [|x a IH]; intros [|y b]; simpl; try done.
  rewrite (IH b), (Nat.eqb_sym (String.length x)).
  by destruct (digits x), (digits y).
Qed.

(** What [get_best_plugin] selects is not exceeded by any discovered
    version at or below the request. *)
Lemma select_is_maximal (self : ComponentPluginLoader) (requested : list string)
    (found : list Plugin) (p : Plugin) (ev : list Event) :
  select self requested found = (Some p, ev) ->
  In p found /\ version_leb (version p) requested = true /\
  forall q, In q found -> version_leb (version q) requested = true ->
            list_ltb (version p) (version q) = false.
Proof.
  unfold select.
  destruct (scan_cases requested found [])
    as [(pre & x & post & -> & Hpre & Hx & ->)|[Hno ->]].
  - intros [= <- _]. split; [apply in_or_app; right; by left|]. split.
    + unfold version_leb. apply list_eqb_true in Hx. by rewrite Hx.
    + intros q _ Hq. rewrite Hx. unfold version_leb in Hq.
      apply orb_prop in Hq as [Hq|Hq].
      * apply list_eqb_true in Hq. rewrite Hq. apply list_ltb_irrefl.
      * by apply list_ltb_asym.
  - simpl.
    assert (forall q, In q (List.filter (fun q => list_ltb (version q) requested) found)
                      <-> In q found /\ version_leb (version q) requested = true) as Hbelow.
    { intros q. rewrite filter_In. split; intros [Hq Hlt]; split; auto.
      - by rewrite version_leb_neq by auto.
      - by rewrite version_leb_neq in Hlt by auto. }
    destruct (List.filter _ found) as [|x xs]; [done|]. intros [= <- _].
    destruct (max_by_version x xs) as [Hin Hmax].
    apply Hbelow in Hin as [Hin Hle]. repeat split; try done.
    intros q Hq Hqle. apply Hmax, Hbelow. by split.
Qed.

(** X23: when the requested version and the discovered versions are
    written with numbers of the same number of digits, position by
    position, [get_best_plugin] resolves numerically: the plugin it
    returns is not above the request as a sequence of integers, and no
    discovered plugin that is not above the request exceeds it. *)
Theorem same_width_resolution_is_numeric glob (self self' : ComponentPluginLoader)
    (v : string) (found : list Plugin) (p : Plugin) (ev : list Event) :
  get_plugins glob self = (Ok found, self') ->
  (forall q, In q found -> same_widths (version q) (split "." v) = true) ->
  (forall q q', In q found -> In q' found -> same_widths (version q) (version q') = true) ->
  get_best_plugin glob self v = (Ok (Some p), self', ev) ->
  In p found /\
  spec_int_ltb (split "." v) (version p) = false /\
  forall q, In q found -> spec_int_ltb (split "." v) (version q) = false ->
            spec_int_ltb (version p) (version q) = false.
Proof.
  intros Hget Hreq Hpair. unfold get_best_plugin. rewrite Hget.
  destruct (select self' (split "." v) found) as [r ev'] eqn:Hsel.
  intros [= -> ->].
  destruct (select_is_maximal _ _ _ _ _ Hsel) as (Hin & Hle & Hmax).
  split; [done|]. split.
  - rewrite <- list_ltb_same_widths by (rewrite same_widths_sym; auto).
    unfold version_leb in Hle. apply orb_prop in Hle as [Hle|Hle].
    + apply list_eqb_true in Hle. rewrite Hle. apply list_ltb_irrefl.
    + by apply list_ltb_asym.
  - intros q Hq Hqle.
    rewrite <- list_ltb_same_widths in Hqle by (rewrite same_widths_sym; auto).
    rewrite <- list_ltb_same_widths by auto.
    apply Hmax; [done|]. unfold version_leb.
    destruct (list_ltb_total (version q) (split "." v)) as [->|[->|Hgt]].
    + unfold list_eqb. by rewrite bool_decide_eq_true_2.
    + apply orb_true_r.
    + congruence.
Qed.

Lemma same_width_resolution_witness :
  In (Sample.plugin "3.10") [Sample.plugin "3.09"; Sample.plugin "3.10"; Sample.plugin "4.00"] /\
  spec_int_ltb (split "." "3.11") (version (Sample.plugin "3.10")) = false /\
  forall q, In q [Sample.plugin "3.09"; Sample.plugin "3.10"; Sample.plugin "4.00"] ->
            spec_int_ltb (split "." "3.11") (version q) = false ->
            spec_int_ltb (version (Sample.plugin "3.10")) (version q) = false.
Proof.
  apply (same_width_resolution_is_numeric (Sample.glob_of ["3.09"; "3.10"; "4.00"])
           (Sample.loader None)
           (snd (get_plugins (Sample.glob_of ["3.09"; "3.10"; "4.00"]) (Sample.loader None)))
           "3.11" _ _ []).
  - vm_compute. reflexivity.
  - intros q [<-|[<-|[<-|[]]]]; reflexivity.
  - intros q q' [<-|[<-|[<-|[]]]] [<-|[<-|[<-|[]]]]; reflexivity.
  - vm_compute. reflexivity.
Defined.

(** ** The return envelope, continued *)

(** X24: [return_true] and [return_false] on the context replace the
    whole envelope: after [return_true(...)] followed by
    [return_false] with [args] and [kwargs] the envelope is falsy, holds
    [args] and [kwargs] and nothing of the first call, [get_return]
    reads [kwargs], and the rest of the context is as before. *)
Theorem last_return_call_wins (ctx : PluginContext) (args0 args : list PyValue)
    (kwargs0 kwargs : gmap string PyValue) :
  let ctx' := PluginContext.return_false (PluginContext.return_true ctx args0 kwargs0)
                args kwargs in
  let r := PluginContext.get_return ctx' in
  PluginReturn.bool r = false /\
  PluginReturn.args r = args /\
  PluginReturn.kwargs r = kwargs /\
  (forall key, PluginReturn.get_return r (PyStr key) = Ok (default PyNone (kwargs !! key))) /\
  r = PluginReturn.return_false PluginReturn.init args kwargs /\
  PluginContext.set__return ctx' (PluginContext.get_return ctx) = ctx.
Proof.
  intros ctx' r. repeat split; [|by destruct ctx].
  intros key. unfold PluginReturn.get_return. simpl.
  destruct (kwargs !! key) as [x|] eqn:E; simpl.
  - rewrite bool_decide_eq_true_2; [done|]. apply elem_of_dom. by exists x.
  - by destruct (bool_decide _).
Qed.

(** ** File records *)

(** X25: a record of the file manifest is stored under its rewritten
    source path, so [bin/x], [/bin/x] and [./bin/x] are three spellings
    of one entry; the record replaces an earlier entry of that path, its
    target defaults to the rewritten path and its type to ["file"]. *)
Theorem file_record_is_stored_under_rewritten_path (fm : list (PyValue * FileItem))
    (data : PyValue) (c : ascii) (s : string) :
  Ascii.eqb c "." = false -> is_slash c = false ->
  (getitem data "src_path" = Ok (PyStr (String c s)) \/
   getitem data "src_path" = Ok (PyStr ("/" +:+ String c s)) \/
   getitem data "src_path" = Ok (PyStr ("./" +:+ String c s))) ->
  let k := PyStr ("./" +:+ String c s) in
  let item := FileItem_init k (get_value_from_dict data "target_path" k)
                (get_value_from_dict data "type" PyNone) in
  exists fm',
    file_map_step fm data = Ok fm' /\
    dict_get fm' k = Some item /\
    (getitem data "target_path" = Raise {| exc_class := KeyError; exc_text := "target_path" |} ->
     fi_target_path item = k) /\
    (getitem data "type" = Raise {| exc_class := KeyError; exc_text := "type" |} ->
     fi_type item = PyStr "file") /\
    (forall k', key_eqb k k' = false -> dict_get fm' k' = dict_get fm k') /\
    map fst fm' = (match dict_get fm k with
                   | Some _ => map fst fm
                   | None => map fst fm ++ [k]
                   end).
Proof.
  intros Hdot Hslash Hsrc k item.
  assert (exists k0, getitem data "src_path" = Ok k0 /\ normalize_src_path k0 = Ok k)
    as (k0 & Hk0 & Hnorm).
  { destruct Hsrc as [H|[H|H]]; eexists; (split; [exact H|]); simpl.
    - rewrite Hdot. unfold path_join. simpl. by rewrite Hslash.
    - done.
    - done. }
  exists (dict_put fm k item). unfold file_map_step, dict_setitem.
  rewrite Hk0, Hnorm. simpl. split; [done|].
  split; [by apply dict_get_put_eq|]. split; [|split; [|split]].
  - intros Ht. unfold item, get_value_from_dict. by rewrite Ht.
  - intros Ht. unfold item, get_value_from_dict. by rewrite Ht.
  - intros k' Hk'. by apply dict_get_put_ne.
  - apply dict_put_keys.
Qed.

Lemma file_record_witness :
  let k := PyStr ("./" +:+ "bin/obproxy") in
  let item := FileItem_init k
                (get_value_from_dict (PyDict [(PyStr "src_path", PyStr "/bin/obproxy")])
                   "target_path" k)
                (get_value_from_dict (PyDict [(PyStr "src_path", PyStr "/bin/obproxy")])
                   "type" PyNone) in
  exists fm',
    file_map_step [(PyStr "./bin/obproxy",
                    FileItem_init (PyStr "./bin/obproxy") (PyStr "bin") (PyStr "dir"))]
      (PyDict [(PyStr "src_path", PyStr "/bin/obproxy")]) = Ok fm' /\
    dict_get fm' k = Some item /\
    (getitem (PyDict [(PyStr "src_path", PyStr "/bin/obproxy")]) "target_path"
       = Raise {| exc_class := KeyError; exc_text := "target_path" |} ->
     fi_target_path item = k) /\
    (getitem (PyDict [(PyStr "src_path", PyStr "/bin/obproxy")]) "type"
       = Raise {| exc_class := KeyError; exc_text := "type" |} ->
     fi_type item = PyStr "file") /\
    (forall k', key_eqb k k' = false ->
       dict_get fm' k'
       = dict_get [(PyStr "./bin/obproxy",
                    FileItem_init (PyStr "./bin/obproxy") (PyStr "bin") (PyStr "dir"))] k') /\
    map fst fm' =
    (match dict_get [(PyStr "./bin/obproxy",
                      FileItem_init (PyStr "./bin/obproxy") (PyStr "bin") (PyStr "dir"))] k with
     | Some _ => map fst [(PyStr "./bin/obproxy",
                           FileItem_init (PyStr "./bin/obproxy") (PyStr "bin") (PyStr "dir"))]
     | None => map fst [(PyStr "./bin/obproxy",
                         FileItem_init (PyStr "./bin/obproxy") (PyStr "bin") (PyStr "dir"))]
               ++ [k]
     end).
Proof.
  apply (file_record_is_stored_under_rewritten_path
           [(PyStr "./bin/obproxy",
             FileItem_init (PyStr "./bin/obproxy") (PyStr "bin") (PyStr "dir"))]
           (PyDict [(PyStr "src_path", PyStr "/bin/obproxy")]) "b"%char "in/obproxy");
    [reflexivity | reflexivity | right; left; reflexivity].
Defined.
